(** * TaskWeaver plugin memory: specification records, prompt rendering,
      plugin loading and the plugin registry.

    A shallow embedding of [taskweaver/memory/plugin.py].  Python objects are
    dynamically typed, so the attributes of the dataclasses hold [value]s
    (what [read_yaml] can hand over); operations that Python rejects at run
    time return [Raise] with the exception Python raises.  The annotated
    shape of the dataclasses is kept in a second, typed layer
    ([TypedParameter], [TypedSpec]) that is injected into the run-time
    objects; the rendering theorems range over that layer. *)

From Stdlib Require Import ZArith Ascii String List Floats.PrimFloat.
From stdpp Require Import base option list strings pretty gmap.

#[local] Set Warnings "-register-all".

(** ** Python values *)

(** The values a YAML document yields: null, booleans, integers, strings,
    sequences and mappings with string keys.  A mapping keeps the insertion
    order of its keys, as a Python [dict] does.  A string is a sequence of
    code points below 256, one [ascii] each. *)
Inductive value : Type :=
  | VNone
  | VBool (b : bool)
  | VInt (z : Z)
  | VStr (s : string)
  | VList (l : list value)
  | VDict (d : list (string * value)).

(** The exceptions that can leave the module.  [ExternalError] stands for
    whatever a collaborator ([read_yaml], the embedding generator) raises. *)
Inductive exn : Type :=
  | KeyError (key : string)
  | TypeError
  | AttributeError
  | IndexError
  | Exception (msg : string)
  | ExternalError (msg : string).

Inductive result (A : Type) : Type :=
  | Ok (a : A)
  | Raise (e : exn).
Arguments Ok {A} a.
Arguments Raise {A} e.

#[global] Instance result_ret : MRet result := @Ok.
#[global] Instance result_bind : MBind result := λ A B f m,
  match m with
  | Ok a => f a
  | Raise e => Raise e
  end.
#[global] Instance result_fmap : FMap result := λ A B f m,
  match m with
  | Ok a => Ok (f a)
  | Raise e => Raise e
  end.

Definition is_ok {A} (m : result A) : bool :=
  match m with Ok _ => true | Raise _ => false end.

(** ** Characters and strings *)

Definition chr (n : N) : ascii := ascii_of_N n.
Definition ord (c : ascii) : N := N_of_ascii c.

Definition LF : ascii := chr 10.
Definition newline : string := String LF "".

(** [str.lower()] on code points below 256: the ASCII capitals and the
    Latin-1 capitals (all of U+00C0..U+00DE but the multiplication sign) move
    up by 32; everything else is unchanged. *)
Definition lower_char (c : ascii) : ascii :=
  let n := ord c in
  if ((65 <=? n) && (n <=? 90))%N then chr (n + 32)
  else if ((192 <=? n) && (n <=? 222) && negb (n =? 215))%N then chr (n + 32)
  else c.

Fixpoint lower (s : string) : string :=
  match s with
  | EmptyString => EmptyString
  | String c s' => String (lower_char c) (lower s')
  end.

(** The characters [str.strip()] removes: those for which [str.isspace()]
    holds, restricted to code points below 256. *)
Definition is_space (c : ascii) : bool :=
  let n := ord c in
  ((9 <=? n) && (n <=? 13) || (28 <=? n) && (n <=? 32)
   || (n =? 133) || (n =? 160))%N.

Fixpoint lstrip (s : string) : string :=
  match s with
  | EmptyString => EmptyString
  | String c s' => if is_space c then lstrip s' else s
  end.

(** [rstrip] keeps a character when it is not a space or when something
    survives after it. *)
Fixpoint rstrip (s : string) : string :=
  match s with
  | EmptyString => EmptyString
  | String c s' =>
      match rstrip s' with
      | EmptyString => if is_space c then EmptyString else String c EmptyString
      | r => String c r
      end
  end.

Definition strip (s : string) : string := rstrip (lstrip s).

(** [s.replace(c, by)] for a one-character pattern [c]. *)
Fixpoint replace_char (c : ascii) (by_ : string) (s : string) : string :=
  match s with
  | EmptyString => EmptyString
  | String a s' =>
      if Ascii.eqb a c then by_ +:+ replace_char c by_ s'
      else String a (replace_char c by_ s')
  end.

(** [s.split(c)] for a one-character separator: never empty. *)
Fixpoint split_char (c : ascii) (s : string) : list string :=
  match s with
  | EmptyString => [EmptyString]
  | String a s' =>
      if Ascii.eqb a c then EmptyString :: split_char c s'
      else match split_char c s' with
           | [] => [String a EmptyString]
           | l :: ls => String a l :: ls
           end
  end.

(** [sep.join(l)]. *)
Definition join (sep : string) (l : list string) : string := String.concat sep l.

Fixpoint chars (s : string) : list ascii :=
  match s with
  | EmptyString => []
  | String c s' => c :: chars s'
  end.

(** ** Built-in operations on values *)

(** Truth value testing ([bool(v)], [not v], [v or w]). *)
Definition truthy (v : value) : bool :=
  match v with
  | VNone => false
  | VBool b => b
  | VInt z => negb (z =? 0)%Z
  | VStr s => negb (String.eqb s "")
  | VList l => match l with [] => false | _ => true end
  | VDict d => match d with [] => false | _ => true end
  end.

(** [a or b] *)
Definition py_or (a b : value) : value := if truthy a then a else b.

Fixpoint dict_lookup (k : string) (d : list (string * value)) : option value :=
  match d with
  | [] => None
  | (k', v) :: d' => if String.eqb k k' then Some v else dict_lookup k d'
  end.

(** [v[k]] for a string [k]: only a mapping accepts a string subscript. *)
Definition getitem (v : value) (k : string) : result value :=
  match v with
  | VDict d =>
      match dict_lookup k d with
      | Some x => Ok x
      | None => Raise (KeyError k)
      end
  | _ => Raise TypeError
  end.

Definition has_key (k : string) (d : list (string * value)) : bool :=
  match dict_lookup k d with Some _ => true | None => false end.

Definition is_str (k : string) (v : value) : bool :=
  match v with VStr s => String.eqb s k | _ => false end.

(** [k in v] for a string [k]. *)
Definition contains (k : string) (v : value) : result bool :=
  match v with
  | VDict d => Ok (has_key k d)
  | VList l => Ok (existsb (is_str k) l)
  | VStr s => Ok (match String.index 0 k s with Some _ => true | None => false end)
  | _ => Raise TypeError
  end.

(** [v.get(k, default)]: a method of mappings only. *)
Definition get (v : value) (k : string) (dflt : value) : result value :=
  match v with
  | VDict d => Ok (default dflt (dict_lookup k d))
  | _ => Raise AttributeError
  end.

(** Iteration ([for p in v]): a sequence yields its elements, a mapping its
    keys in insertion order, a string its characters. *)
Definition iter (v : value) : result (list value) :=
  match v with
  | VList l => Ok l
  | VDict d => Ok (map (λ kv, VStr (fst kv)) d)
  | VStr s => Ok (map (λ c, VStr (String c "")) (chars s))
  | _ => Raise TypeError
  end.

(** [repr] of a string: single quotes unless the string has a single quote
    and no double quote; backslash, the quote, tab, line feed and carriage
    return are escaped with a backslash, other non-printable characters as
    [\xNN]. *)
Definition hex_digit (n : N) : ascii :=
  if (n <? 10)%N then chr (48 + n) else chr (87 + n).

Definition is_printable (n : N) : bool :=
  ((32 <=? n) && (n <? 127) || (161 <=? n) && negb (n =? 173))%N.

Definition repr_char (quote : ascii) (c : ascii) : string :=
  let n := ord c in
  if Ascii.eqb c quote || (n =? 92)%N then String (chr 92) (String c "")
  else if (n =? 9)%N then "\t"
  else if (n =? 10)%N then "\n"
  else if (n =? 13)%N then "\r"
  else if is_printable n then String c ""
  else String (chr 92) (String "x" (String (hex_digit (n / 16)) (String (hex_digit (n mod 16)) ""))).

Definition repr_str (s : string) : string :=
  let has c := existsb (Ascii.eqb c) (chars s) in
  let quote := if has "'"%char && negb (has (chr 34)) then chr 34 else "'"%char in
  String quote (String.concat "" (map (repr_char quote) (chars s))) +:+ String quote "".

(** [repr(v)]. *)
Fixpoint repr (v : value) : string :=
  match v with
  | VNone => "None"
  | VBool b => if b then "True" else "False"
  | VInt z => pretty z
  | VStr s => repr_str s
  | VList l => "[" +:+ join ", " (map repr l) +:+ "]"
  | VDict d =>
      "{" +:+ join ", " (map (λ kv, repr_str (fst kv) +:+ ": " +:+ repr (snd kv)) d) +:+ "}"
  end.

(** [str(v)], which is what an f-string field [{v}] inserts. *)
Definition str (v : value) : string :=
  match v with
  | VStr s => s
  | _ => repr v
  end.

(** [a + b] with a string on one side: concatenation when the other side is
    a string too, [TypeError] otherwise. *)
Definition add_str (a : value) (b : string) : result string :=
  match a with
  | VStr s => Ok (s +:+ b)
  | _ => Raise TypeError
  end.

Definition str_add (a : string) (b : value) : result string :=
  match b with
  | VStr s => Ok (a +:+ s)
  | _ => Raise TypeError
  end.

(** Method calls that only strings have. *)
Definition call_lower (v : value) : result string :=
  match v with
  | VStr s => Ok (lower s)
  | _ => Raise AttributeError
  end.

Definition call_strip (v : value) : result string :=
  match v with
  | VStr s => Ok (strip s)
  | _ => Raise AttributeError
  end.

(** ** PluginParameter *)

Module PluginParameter.

(** The object a [PluginParameter(...)] call builds.  The annotations
    ([name: str], [type: str], [required: bool],
    [description: Optional[str]]) are not enforced by Python: each
    attribute holds whatever value was passed. *)
Record t : Type := mk {
  name : value;
  type : value;
  required : value;
  description : value;
}.

(** [PluginParameter.from_dict(d)]; the keyword arguments are evaluated in
    the order they are written. *)
Definition from_dict (d : value) : result t :=
  name_ ← getitem d "name";
  description_ ← getitem d "description";
  required_ ← (b ← contains "required" d;
               if b : bool then getitem d "required" else Ok (VBool false));
  type_ ← (b ← contains "type" d;
           if b : bool then getitem d "type" else Ok (VStr "Any"));
  Ok {| name := name_; type := type_; required := required_;
        description := description_ |}.

(** [PluginParameter.format_prompt(self, indent)]. *)
Definition format_prompt (self : t) (indent : nat) : string :=
  let line (cnt : string) := String.concat "" (replicate indent " ") +:+ cnt in
  join newline
    [ line ("- name: " +:+ str (name self));
      line ("  type: " +:+ str (type self));
      line ("  required: " +:+ str (required self));
      line ("  description: " +:+ str (description self)) ].

End PluginParameter.

(** ** PluginSpec *)

Module PluginSpec.

Record t : Type := mk {
  name : value;
  description : value;
  args : list PluginParameter.t;
  returns : list PluginParameter.t;
  embedding : list float;
}.

(** [PluginSpec.from_dict(d)]. *)
Definition from_dict (d : value) : result t :=
  name_ ← getitem d "name";
  description_ ← getitem d "description";
  args_ ← (ps ← getitem d "parameters";
           l ← iter ps; mapM PluginParameter.from_dict l);
  returns_ ← (rs ← getitem d "returns";
              l ← iter rs; mapM PluginParameter.from_dict l);
  Ok {| name := name_; description := description_;
        args := args_; returns := returns_; embedding := [] |}.

(** The helpers nested in [format_prompt]. *)
Definition normalize_type (t : value) : result string :=
  l ← call_lower t;
  if String.eqb l "string" then Ok "str"
  else
    l ← call_lower t;
    if String.eqb l "integer" then Ok "int"
    else Ok (str t).

Definition normalize_description (d : value) : result string :=
  d ← call_strip d;
  Ok (replace_char LF (newline +:+ "# ") d).

Definition normalize_value (v : PluginParameter.t) : result PluginParameter.t :=
  type_ ← normalize_type (PluginParameter.type v);
  description_ ←
    normalize_description (py_or (PluginParameter.description v) (VStr ""));
  Ok {| PluginParameter.name := PluginParameter.name v;
        PluginParameter.type := VStr type_;
        PluginParameter.required := PluginParameter.required v;
        PluginParameter.description := VStr description_ |}.

(** [v is not None] *)
Definition is_not_none (v : value) : bool :=
  match v with VNone => false | _ => true end.

(** [v != s] for a string literal [s] *)
Definition ne_str (v : value) (s : string) : bool := negb (is_str s v).

Definition format_arg_val (val : PluginParameter.t) : result string :=
  val ← normalize_value val;
  let type_val :=
    if ne_str (PluginParameter.type val) "Any"
       && negb (truthy (PluginParameter.required val))
    then "Optional[" +:+ str (PluginParameter.type val) +:+ "]"
    else "Any" in
  if is_not_none (PluginParameter.description val)
  then Ok (newline +:+ "# " +:+ str (PluginParameter.description val) +:+ newline
           +:+ str (PluginParameter.name val) +:+ ": " +:+ type_val)
  else Ok (str (PluginParameter.name val) +:+ ": " +:+ type_val).

Definition format_return_val (val : PluginParameter.t) : result string :=
  val ← normalize_value val;
  if is_not_none (PluginParameter.description val)
  then Ok (newline +:+ "# " +:+ str (PluginParameter.name val) +:+ ": "
           +:+ str (PluginParameter.description val)
           +:+ newline +:+ str (PluginParameter.type val))
  else Ok (str (PluginParameter.type val)).

(** [PluginSpec.format_prompt(self)].  In the one-return branch the first
    assignment to [return_type] is shadowed by the second, as in the
    source. *)
Definition format_prompt (self : t) : result string :=
  param_list ← join "," <$> mapM format_arg_val (args self);
  let return_type := "" in
  return_type ←
    (if 1 <? length (returns self) then
       l ← mapM format_return_val (returns self);
       Ok ("Tuple[" +:+ join "," l +:+ "]")
     else if length (returns self) =? 1 then
       rv ← match returns self with
            | r0 :: _ => normalize_value r0
            | [] => Raise IndexError
            end;
       let return_type :=
         if is_not_none (PluginParameter.description rv)
         then "\" +:+ newline +:+ "# " +:+ str (PluginParameter.name rv) +:+ ": "
              +:+ str (PluginParameter.description rv) +:+ newline
              +:+ str (PluginParameter.type rv)
         else return_type in
       let return_type := str (PluginParameter.type rv) in
       Ok return_type
     else Ok "None");
  Ok ("# " +:+ str (description self) +:+ newline +:+ "def "
      +:+ str (name self) +:+ "(" +:+ param_list +:+ ") -> "
      +:+ return_type +:+ ":..." +:+ newline).

End PluginSpec.

(** ** PluginEntry *)

(** The collaborators the module imports: [read_yaml] and [validate_yaml]
    from [taskweaver.utils] and the generator's [get_embedding]. *)
Record collaborators : Type := {
  read_yaml : string → result value;
  validate_yaml : value → string → result bool;
  get_embedding : string → result (list float);
}.

Module PluginEntry.

Record t : Type := mk {
  name : value;
  impl : value;
  spec : PluginSpec.t;
  config : value;
  required : value;
  enabled : value;
}.

(** [PluginEntry.from_yaml(path)]; [None] is Python's [None]. *)
Definition from_yaml (env : collaborators) (path : string) : result (option t) :=
  content ← read_yaml env path;
  let do_validate := false in
  let valid_state := false in
  valid_state ← (if do_validate then validate_yaml env content "plugin_schema"
                 else Ok valid_state);
  if negb do_validate || valid_state then
    spec_ ← PluginSpec.from_dict content;
    impl_ ← get content "code" (PluginSpec.name spec_);
    config_ ← get content "configurations" (VDict []);
    required_ ← get content "required" (VBool false);
    enabled_ ← get content "enabled" (VBool true);
    Ok (Some {| name := PluginSpec.name spec_; impl := impl_; spec := spec_;
                config := config_; required := required_; enabled := enabled_ |})
  else Ok None.

Definition format_prompt (self : t) : result string :=
  PluginSpec.format_prompt (spec self).

(** [entry.spec.embedding = e] *)
Definition set_embedding (e : list float) (self : t) : t :=
  let s := spec self in
  {| name := name self; impl := impl self;
     spec := {| PluginSpec.name := PluginSpec.name s;
                PluginSpec.description := PluginSpec.description s;
                PluginSpec.args := PluginSpec.args s;
                PluginSpec.returns := PluginSpec.returns s;
                PluginSpec.embedding := e |};
     config := config self; required := required self; enabled := enabled self |}.

End PluginEntry.

(** ** Computations that call the embedding collaborator *)

(** A computation threads the list of texts sent to [get_embedding] so far
    (oldest first) and ends in a value or an exception. *)
Definition io (A : Type) : Type := list string → result A * list string.

#[global] Instance io_ret : MRet io := λ A a log, (Ok a, log).
#[global] Instance io_bind : MBind io := λ A B f m log,
  match m log with
  | (Ok a, log') => f a log'
  | (Raise e, log') => (Raise e, log')
  end.

Definition lift {A} (m : result A) : io A := λ log, (m, log).

Definition request_embedding (env : collaborators) (text : string) : io (list float) :=
  λ log, (get_embedding env text, log ++ [text]).

(** [try: m  except Exception as e: ...]: the exception becomes a value. *)
Definition attempt {A} (m : io A) : io (result A) :=
  λ log, let '(r, log') := m log in (Ok r, log').

(** ** PluginRegistry *)

Module PluginRegistry.

(** The arguments of [__init__] that the registry keeps: the glob and the
    time to live (in seconds) go to the base class, the two selection
    settings stay on the object. *)
Record t : Type := mk {
  file_glob : string;
  ttl : option Z;
  enable_auto_plugin_selection : bool;
  auto_plugin_selection_topk : Z;
}.

(** [PluginRegistry._load_component(self, path)]. *)
Definition _load_component (env : collaborators) (self : t) (path : string)
  : io (value * PluginEntry.t) :=
  entry ← lift (PluginEntry.from_yaml env path);
  match entry with
  | None => lift (Raise (Exception ("failed to loading plugin from " +:+ path)))
  | Some entry =>
      if negb (truthy (PluginEntry.enabled entry)) then
        lift (Raise (Exception ("plugin " +:+ str (PluginEntry.name entry)
                                +:+ " is disabled")))
      else
        entry ←
          (if enable_auto_plugin_selection self then
             text ← lift (t1 ← add_str (PluginEntry.name entry) ": ";
                          str_add t1 (PluginSpec.description (PluginEntry.spec entry)));
             e ← request_embedding env text;
             mret (PluginEntry.set_embedding e entry)
           else mret entry);
        mret (PluginEntry.name entry, entry)
  end.

End PluginRegistry.

(** ** ComponentRegistry *)

Module ComponentRegistry.

(** Modelled from the spec: [taskweaver/misc/component_registry.py], the
    base class of [PluginRegistry], is not among the sources.  Section 4.3
    of the specification gives its behaviour: a [name → T] index and a
    [lastRefreshed] timestamp; an access refreshes the index when it is
    stale; a refresh enumerates the files matching the glob (sorted), loads
    each one, skips and records the ones that fail, assembles a new mapping
    (a later file wins a name collision) and swaps it in. *)
Record t (T : Type) : Type := mk {
  snapshot : gmap string T;
  lastRefreshed : option Z;
}.
Arguments mk {T} _ _.
Arguments snapshot {T} _.
Arguments lastRefreshed {T} _.

(** Modelled from the spec: a registry that was never refreshed. *)
Definition empty {T} : t T := {| snapshot := ∅; lastRefreshed := None |}.

Section registry.
Context {T : Type}.
(** [loadComponent(path) -> (name, T)] *)
Variable load : string → io (string * T).
Variable ttl : option Z.
(** The policy for an unset or zero [ttl], which the specification asks
    to be explicit: reload on every access, or load once. *)
Variable reload_without_ttl : bool.

(** Modelled from the spec: "if [now - lastRefreshed < ttl], no-op". *)
Definition is_stale (now : Z) (r : t T) : bool :=
  match lastRefreshed r with
  | None => true
  | Some last =>
      match ttl with
      | Some d => if (d =? 0)%Z then reload_without_ttl
                  else negb (now - last <? d)%Z
      | None => reload_without_ttl
      end
  end.

(** Modelled from the spec: one pass over the enumerated files; [acc] is
    the mapping under construction, [failed] the files skipped so far. *)
Fixpoint load_all (paths : list string) (acc : gmap string T)
    (failed : list (string * exn)) : io (gmap string T * list (string * exn)) :=
  match paths with
  | [] => mret (acc, failed)
  | path :: rest =>
      r ← attempt (load path);
      match r with
      | Ok (name, c) => load_all rest (<[name := c]> acc) failed
      | Raise e => load_all rest acc (failed ++ [(path, e)])
      end
  end.

(** Modelled from the spec: the refresh builds the new mapping aside and
    then replaces the snapshot and the timestamp together. *)
Definition refresh (files : list string) (now : Z) (r : t T)
  : io (t T * list (string * exn)) :=
  '(fresh, failed) ← load_all files ∅ [];
  mret ({| snapshot := fresh; lastRefreshed := Some now |}, failed).

(** Modelled from the spec: the check every access starts with. *)
Definition refresh_if_stale (files : list string) (now : Z) (r : t T) : io (t T) :=
  if is_stale now r then '(r', _) ← refresh files now r; mret r'
  else mret r.

(** Modelled from the spec: [get(name)] checks for staleness and then looks
    the name up; it also returns the registry state it leaves behind. *)
Definition get (files : list string) (now : Z) (name : string) (r : t T)
  : io (option T * t T) :=
  r' ← refresh_if_stale files now r;
  mret (snapshot r' !! name, r').

(** Modelled from the spec: [list()] checks for staleness and then returns
    all current entries, in the order of the index. *)
Definition list (files : list string) (now : Z) (r : t T)
  : io (list T * t T) :=
  r' ← refresh_if_stale files now r;
  mret ((map_to_list (snapshot r')).*2, r').
End registry.

End ComponentRegistry.

(** Modelled from the spec: the index of a registry is keyed by strings
    ([mapping<string, Entry>]); an entry whose [name] is not a string has no
    key in it, and its load counts as failed. *)
Definition plugin_key (n : value) : result string :=
  match n with
  | VStr s => Ok s
  | _ => Raise TypeError
  end.

(** The loader of the registry of plugins, [ComponentRegistry[PluginEntry]]:
    [_load_component], its name turned into a key. *)
Definition load_plugin (env : collaborators) (self : PluginRegistry.t) (path : string)
  : io (string * PluginEntry.t) :=
  '(n, entry) ← PluginRegistry._load_component env self path;
  key ← lift (plugin_key n);
  mret (key, entry).

(** What the registry sees of the outside at one access: the files matching
    its glob, in sorted order, the collaborators, and the clock. *)
Record world : Type := {
  files : list string;
  env : collaborators;
  now : Z;
}.

(** [registry.list()] and [registry.get(name)] on the registry of plugins. *)
Definition plugin_list (self : PluginRegistry.t) (policy : bool) (w : world)
    (r : ComponentRegistry.t PluginEntry.t)
  : io (list PluginEntry.t * ComponentRegistry.t PluginEntry.t) :=
  ComponentRegistry.list (load_plugin (env w) self) (PluginRegistry.ttl self) policy
    (files w) (now w) r.

Definition plugin_get (self : PluginRegistry.t) (policy : bool) (w : world)
    (name : string) (r : ComponentRegistry.t PluginEntry.t)
  : io (option PluginEntry.t * ComponentRegistry.t PluginEntry.t) :=
  ComponentRegistry.get (load_plugin (env w) self) (PluginRegistry.ttl self) policy
    (files w) (now w) name r.

(** The registry states an execution can reach: the empty registry, and any
    state an access ([get] or [list]) leaves behind, whatever the files, the
    collaborators and the clock are at that access. *)
Inductive reachable (self : PluginRegistry.t) (policy : bool)
  : ComponentRegistry.t PluginEntry.t → Prop :=
  | reachable_empty : reachable self policy ComponentRegistry.empty
  | reachable_access r w log r' log' :
      reachable self policy r →
      ComponentRegistry.refresh_if_stale (load_plugin (env w) self)
        (PluginRegistry.ttl self) policy (files w) (now w) r log = (Ok r', log') →
      reachable self policy r'.

(** ** Objects that respect the annotations *)

(** A [PluginParameter] whose attributes have the annotated types:
    [name: str], [type: str], [required: bool],
    [description: Optional[str]]. *)
Record TypedParameter : Type := {
  p_name : string;
  p_type : string;
  p_required : bool;
  p_description : option string;
}.

Definition optional_str (o : option string) : value :=
  match o with
  | Some s => VStr s
  | None => VNone
  end.

Definition parameter_object (p : TypedParameter) : PluginParameter.t :=
  {| PluginParameter.name := VStr (p_name p);
     PluginParameter.type := VStr (p_type p);
     PluginParameter.required := VBool (p_required p);
     PluginParameter.description := optional_str (p_description p) |}.

(** A [PluginSpec] whose attributes have the annotated types. *)
Record TypedSpec : Type := {
  s_name : string;
  s_description : string;
  s_args : list TypedParameter;
  s_returns : list TypedParameter;
  s_embedding : list float;
}.

Definition specification_object (s : TypedSpec) : PluginSpec.t :=
  {| PluginSpec.name := VStr (s_name s);
     PluginSpec.description := VStr (s_description s);
     PluginSpec.args := map parameter_object (s_args s);
     PluginSpec.returns := map parameter_object (s_returns s);
     PluginSpec.embedding := s_embedding s |}.

(** ** The rendering as the specification words it *)

(** "normalizes type aliases": [string] becomes [str] and [integer] becomes
    [int], whatever the case of the letters; any other type is kept. *)
Definition normalized_type (t : string) : string :=
  if String.eqb (lower t) "string" then "str"
  else if String.eqb (lower t) "integer" then "int"
  else t.

(** "folds multi-line descriptions into comment-prefixed lines": the lines
    of the description, each one after the first behind a comment mark. *)
Definition folded (d : string) : string :=
  join (newline +:+ "# ") (split_char LF d).

(** The description that is rendered for a parameter: the given one without
    its leading and trailing white space, the empty one when none is given. *)
Definition rendered_description (p : TypedParameter) : string :=
  strip (default "" (p_description p)).

(** The annotation of an argument: [Optional[T]] for a parameter that is not
    required and whose normalized type [T] is not [Any], and [Any] for the
    others. *)
Definition annotation (p : TypedParameter) : string :=
  if p_required p || String.eqb (normalized_type (p_type p)) "Any" then "Any"
  else "Optional[" +:+ normalized_type (p_type p) +:+ "]".

Definition rendered_arg (p : TypedParameter) : string :=
  newline +:+ "# " +:+ folded (rendered_description p) +:+ newline
  +:+ p_name p +:+ ": " +:+ annotation p.

(** One member of the tuple of return values: a comment with its name and
    description, then its normalized type. *)
Definition rendered_member (p : TypedParameter) : string :=
  newline +:+ "# " +:+ p_name p +:+ ": " +:+ folded (rendered_description p)
  +:+ newline +:+ normalized_type (p_type p).

(** "renders a single return type directly, multiple return values as an
    ordered tuple-like type, and zero return values as a none type". *)
Definition rendered_return_type (rs : list TypedParameter) : string :=
  match rs with
  | [] => "None"
  | [r] => normalized_type (p_type r)
  | _ => "Tuple[" +:+ join "," (map rendered_member rs) +:+ "]"
  end.

Definition rendered_prompt (s : TypedSpec) : string :=
  "# " +:+ s_description s +:+ newline +:+ "def " +:+ s_name s +:+ "("
  +:+ join "," (map rendered_arg (s_args s)) +:+ ") -> "
  +:+ rendered_return_type (s_returns s) +:+ ":..." +:+ newline.

(** The text of the prompt up to the return type. *)
Definition prompt_head (s : TypedSpec) : string :=
  "# " +:+ s_description s +:+ newline +:+ "def " +:+ s_name s +:+ "("
  +:+ join "," (map rendered_arg (s_args s)) +:+ ") -> ".

(** ** Sample data *)

(** The record of a plugin file, with or without an [enabled] field. *)
Definition sql_record (enabled_field : list (string * value)) : value :=
  VDict ([("name", VStr "sql"); ("description", VStr "query a database");
          ("parameters",
           VList [VDict [("name", VStr "query"); ("type", VStr "string");
                         ("required", VBool true);
                         ("description", VStr "the query text")]]);
          ("returns",
           VList [VDict [("name", VStr "rows"); ("type", VStr "integer");
                         ("description", VStr "the number of rows")]])]
         ++ enabled_field).

(** Collaborators that read the same record from every path and answer
    every embedding request with the same vector. *)
Definition constant_collaborators (content : value) (v : list float) : collaborators :=
  {| read_yaml := λ _, Ok content;
     validate_yaml := λ _ _, Ok true;
     get_embedding := λ _, Ok v |}.

(** A directory with an enabled and a disabled plugin. *)
Definition two_files : collaborators :=
  {| read_yaml := λ path,
       if String.eqb path "a.yaml" then Ok (sql_record [])
       else Ok (VDict [("name", VStr "off"); ("description", VStr "d");
                       ("parameters", VList []); ("returns", VList []);
                       ("enabled", VBool false)]);
     validate_yaml := λ _ _, Ok true;
     get_embedding := λ _, Ok [] |}.

Definition sample_registry (auto : bool) : PluginRegistry.t :=
  {| PluginRegistry.file_glob := "plugins/*.yaml";
     PluginRegistry.ttl := Some 600%Z;
     PluginRegistry.enable_auto_plugin_selection := auto;
     PluginRegistry.auto_plugin_selection_topk := 3 |}.

(** The names of the entries a [list()] call returned. *)
Definition listed_names
    (r : result (list PluginEntry.t * ComponentRegistry.t PluginEntry.t) * list string)
  : option (list value) :=
  match r.1 with
  | Ok (es, _) => Some (map PluginEntry.name es)
  | Raise _ => None
  end.

(** ** Predicates used in the statements *)

(** [k] is a field of [v]: the subscript [v[k]] has a value. *)
Definition has_field (v : value) (k : string) : bool := is_ok (getitem v k).

(** The value under [k] can be iterated and each of its elements is a
    mapping with a [name] and a [description]. *)
Definition parameters_ok (v : value) (k : string) : bool :=
  match getitem v k with
  | Ok ps =>
      match iter ps with
      | Ok l => forallb (λ p, has_field p "name" && has_field p "description") l
      | Raise _ => false
      end
  | Raise _ => false
  end.

(** Every component of an index satisfies [P]. *)
Definition all_P {T} (P : string → T → Prop) (m : gmap string T) : Prop :=
  ∀ k c, m !! k = Some c → P k c.

(** An entry that some successful [_load_component] call returned under the
    name [k]; such an entry is enabled. *)
Definition loaded (self : PluginRegistry.t) (k : string) (e : PluginEntry.t) : Prop :=
  truthy (PluginEntry.enabled e) = true
  ∧ ∃ env path log log',
      PluginRegistry._load_component env self path log = (Ok (VStr k, e), log').

(** ** Further predicates and sample records *)

(** A mapping, as opposed to any other value. *)
Definition is_dict (v : value) : bool :=
  match v with VDict _ => true | _ => false end.

(** A string without a line feed. *)
Definition no_line_break (s : string) : bool :=
  forallb (λ c, negb (Ascii.eqb c LF)) (chars s).

(** A string of white space only. *)
Definition all_space (s : string) : bool := forallb is_space (chars s).

(** [" " * n] *)
Definition spaces (n : nat) : string := String.concat "" (replicate n " ").

(** What [normalize_value] accepts: a [type] that is a string, and a
    [description] that is a string or counts as false. *)
Definition renderable (p : PluginParameter.t) : bool :=
  match PluginParameter.type p with
  | VStr _ =>
      match PluginParameter.description p with
      | VStr _ => true
      | d => negb (truthy d)
      end
  | _ => false
  end.

(** The text of a renderable description before it is normalized. *)
Definition description_text (p : PluginParameter.t) : string :=
  match PluginParameter.description p with
  | VStr s => s
  | _ => ""
  end.

(** The record that spells out all four fields of an annotated parameter, as
    a plugin file would. *)
Definition parameter_record (p : TypedParameter) : value :=
  VDict [("name", VStr (p_name p)); ("type", VStr (p_type p));
         ("required", VBool (p_required p));
         ("description", optional_str (p_description p))].

(** The record of an annotated specification. *)
Definition spec_record (s : TypedSpec) : value :=
  VDict [("name", VStr (s_name s)); ("description", VStr (s_description s));
         ("parameters", VList (map parameter_record (s_args s)));
         ("returns", VList (map parameter_record (s_returns s)))].

(** * Properties *)

(** Unfolding the binds of a computation in [io], and running one bind of a
    computation in [result]. *)
Ltac unfold_io := unfold mbind, io_bind, lift.
Ltac step := cbn [mbind result_bind].
Ltac step_in H := cbn [mbind result_bind] in H.

(** ** Strings *)

Example repr_nested :
  repr (VList [VStr "ab"; VInt (-3); VDict [("k", VBool true)]; VStr newline; VNone])
  = "['ab', -3, {'k': True}, '\n', None]".
Proof. vm_compute. reflexivity. Qed.

Example strip_ex : strip (String LF "  a b " +:+ newline) = "a b".
Proof. vm_compute. reflexivity. Qed.

Section string_facts.
Implicit Types (s t u : string) (c : ascii).

Lemma app_cons c s t : String c s +:+ t = String c (s +:+ t).
Proof. reflexivity. Qed.

Lemma app_empty_l s : "" +:+ s = s.
Proof. reflexivity. Qed.

Lemma app_empty_r s : s +:+ "" = s.
Proof. induction s as [|c s IH]; [reflexivity|]. by rewrite app_cons, IH. Qed.

Lemma app_assoc_str s t u : (s +:+ t) +:+ u = s +:+ (t +:+ u).
Proof. induction s as [|c s IH]; [reflexivity|]. by rewrite !app_cons, IH. Qed.

Lemma split_char_nonempty c s : split_char c s ≠ [].
Proof.
  destruct s as [|a s]; simpl; [done|].
  destruct (Ascii.eqb a c); [done|]. by destruct (split_char c s).
Qed.

Lemma join_cons sep s l ls :
  join sep (s :: l :: ls) = s +:+ sep +:+ join sep (l :: ls).
Proof. reflexivity. Qed.

Lemma join_cons_char sep c s ls :
  join sep (String c s :: ls) = String c (join sep (s :: ls)).
Proof. by destruct ls. Qed.

(** Replacing a separator is splitting at it and joining with the
    replacement. *)
Lemma replace_char_split c sep s :
  replace_char c sep s = join sep (split_char c s).
Proof.
  induction s as [|a s IH]; simpl; [reflexivity|].
  pose proof (split_char_nonempty c s) as Hne.
  destruct (Ascii.eqb a c).
  - rewrite IH. destruct (split_char c s) as [|l ls]; [done|].
    by rewrite join_cons.
  - rewrite IH. destruct (split_char c s) as [|l ls]; [done|].
    by rewrite join_cons_char.
Qed.

End string_facts.

(** ** The error monad *)

Lemma mapM_ok {A B C} (f : B → result C) (g : A → C) (inj : A → B) (l : list A) :
  (∀ x, f (inj x) = Ok (g x)) → mapM f (map inj l) = Ok (map g l).
Proof.
  intros Hf. induction l as [|x l IH]; [reflexivity|].
  cbn [map mapM]. rewrite Hf. cbn. rewrite IH. reflexivity.
Qed.

(** ** Rendering objects that respect the annotations *)

Section typed_rendering.
Implicit Types (p : TypedParameter) (s : TypedSpec).

Lemma normalize_type_typed (t : string) :
  PluginSpec.normalize_type (VStr t) = Ok (normalized_type t).
Proof.
  unfold PluginSpec.normalize_type, normalized_type. cbn.
  destruct (String.eqb (lower t) "string"); [reflexivity|].
  destruct (String.eqb (lower t) "integer"); reflexivity.
Qed.

Lemma description_or_empty (o : option string) :
  py_or (optional_str o) (VStr "") = VStr (default "" o).
Proof.
  destruct o as [d|]; [|reflexivity]. unfold py_or. cbn.
  destruct (String.eqb_spec d ""); [by subst|reflexivity].
Qed.

Lemma normalize_description_typed (o : option string) :
  PluginSpec.normalize_description (py_or (optional_str o) (VStr ""))
  = Ok (folded (strip (default "" o))).
Proof.
  rewrite description_or_empty. unfold PluginSpec.normalize_description. cbn.
  by rewrite replace_char_split.
Qed.

Lemma normalize_value_typed p :
  PluginSpec.normalize_value (parameter_object p)
  = Ok {| PluginParameter.name := VStr (p_name p);
          PluginParameter.type := VStr (normalized_type (p_type p));
          PluginParameter.required := VBool (p_required p);
          PluginParameter.description := VStr (folded (rendered_description p)) |}.
Proof.
  unfold PluginSpec.normalize_value. cbn [parameter_object PluginParameter.type
    PluginParameter.description PluginParameter.name PluginParameter.required].
  rewrite normalize_type_typed. cbn. rewrite normalize_description_typed.
  reflexivity.
Qed.

Lemma format_arg_val_typed p :
  PluginSpec.format_arg_val (parameter_object p) = Ok (rendered_arg p).
Proof.
  unfold PluginSpec.format_arg_val. rewrite normalize_value_typed. cbn.
  unfold rendered_arg, annotation, PluginSpec.ne_str. cbn.
  rewrite ?app_assoc_str.
  destruct (p_required p), (String.eqb (normalized_type (p_type p)) "Any");
    reflexivity.
Qed.

Lemma format_return_val_typed p :
  PluginSpec.format_return_val (parameter_object p) = Ok (rendered_member p).
Proof.
  unfold PluginSpec.format_return_val. rewrite normalize_value_typed. cbn.
  unfold rendered_member. rewrite ?app_assoc_str. reflexivity.
Qed.

Lemma format_prompt_typed s :
  PluginSpec.format_prompt (specification_object s) = Ok (rendered_prompt s).
Proof.
  unfold PluginSpec.format_prompt, rendered_prompt.
  cbn [specification_object PluginSpec.args PluginSpec.returns
       PluginSpec.name PluginSpec.description].
  rewrite (mapM_ok PluginSpec.format_arg_val rendered_arg)
    by apply format_arg_val_typed.
  rewrite (mapM_ok PluginSpec.format_return_val rendered_member)
    by apply format_return_val_typed.
  rewrite length_map.
  destruct (s_returns s) as [|r [|r' rs]];
    cbn [map length Nat.ltb Nat.leb Nat.eqb].
  - reflexivity.
  - rewrite normalize_value_typed. reflexivity.
  - reflexivity.
Qed.
End typed_rendering.

(** A record as a plugin file gives it, parsed and rendered: the required
    parameter is annotated [Any] and the single return value leaves only
    its normalized type. *)
Example sql_prompt :
  (PluginSpec.from_dict (sql_record []) ≫= PluginSpec.format_prompt)
  = Ok ("# query a database" +:+ newline
        +:+ "def sql(" +:+ newline
        +:+ "# the query text" +:+ newline
        +:+ "query: Any) -> int:..." +:+ newline).
Proof. vm_compute. reflexivity. Qed.

(** Outside the annotations the rendering can raise: a parameter whose
    [type] is [None] has no [lower] method. *)
Example null_type_raises :
  PluginSpec.format_prompt
    {| PluginSpec.name := VStr "f"; PluginSpec.description := VStr "d";
       PluginSpec.args :=
         [{| PluginParameter.name := VStr "x"; PluginParameter.type := VNone;
             PluginParameter.required := VBool false;
             PluginParameter.description := VNone |}];
       PluginSpec.returns := []; PluginSpec.embedding := [] |}
  = Raise AttributeError.
Proof. reflexivity. Qed.

(** ** The rendered prompt *)

Lemma rendered_prompt_head s :
  rendered_prompt s
  = prompt_head s +:+ rendered_return_type (s_returns s) +:+ ":..." +:+ newline.
Proof. unfold rendered_prompt, prompt_head. by rewrite !app_assoc_str. Qed.

(** C2: the return type in the prompt is ["None"] for no return value, the
    normalized type itself for one return value, and for two or more a
    [Tuple[...]] whose members, in the order of the sequence, each end in the
    normalized type of one return value. *)
Theorem return_type_rendering (s : TypedSpec) :
  match s_returns s with
  | [] =>
      PluginSpec.format_prompt (specification_object s)
      = Ok (prompt_head s +:+ "None" +:+ ":..." +:+ newline)
  | [r] =>
      PluginSpec.format_prompt (specification_object s)
      = Ok (prompt_head s +:+ normalized_type (p_type r) +:+ ":..." +:+ newline)
  | rs =>
      PluginSpec.format_prompt (specification_object s)
      = Ok (prompt_head s
            +:+ ("Tuple["
                 +:+ join ","
                       (map (λ r, newline +:+ "# " +:+ p_name r +:+ ": "
                                  +:+ folded (rendered_description r) +:+ newline
                                  +:+ normalized_type (p_type r)) rs)
                 +:+ "]")
            +:+ ":..." +:+ newline)
  end.
Proof.
  rewrite format_prompt_typed, rendered_prompt_head.
  by destruct (s_returns s) as [|r [|r' rs]].
Qed.

(** C9: the annotation of an argument is [Optional[T]], with [T] the
    normalized type, exactly when the parameter is not required and [T] is
    not ["Any"]; for a required parameter, and for one whose normalized type
    is ["Any"], it is ["Any"], so that the declared type of a required
    parameter is not rendered. *)
Theorem argument_annotation (p : TypedParameter) :
  PluginSpec.format_arg_val (parameter_object p)
  = Ok (newline +:+ "# " +:+ folded (rendered_description p) +:+ newline
        +:+ p_name p +:+ ": " +:+ annotation p)
  ∧ (annotation p = "Optional[" +:+ normalized_type (p_type p) +:+ "]"
     ↔ p_required p = false ∧ normalized_type (p_type p) ≠ "Any")
  ∧ (p_required p = true ∨ normalized_type (p_type p) = "Any"
     → annotation p = "Any").
Proof.
  split; [apply format_arg_val_typed|].
  unfold annotation.
  destruct (p_required p); cbn [orb];
    [|destruct (String.eqb_spec (normalized_type (p_type p)) "Any") as [E|E]].
  - split; [split; [discriminate|intros [? _]; discriminate]|done].
  - split; [split; [discriminate|intros [_ ?]; done]|done].
  - split; [split; [done|done]|intros [?|?]; done].
Qed.

(** C10: with exactly one return value the prompt carries only its
    normalized type; the output is the same whatever the description, the
    name and the required flag of that return value are. *)
Theorem single_return_description_dropped
    (n d : string) (a : list TypedParameter) (e : list float)
    (r : TypedParameter) (name' : string) (required' : bool)
    (description' : option string) :
  let spec_with rv :=
    {| s_name := n; s_description := d; s_args := a; s_returns := [rv];
       s_embedding := e |} in
  PluginSpec.format_prompt (specification_object (spec_with r))
  = Ok ("# " +:+ d +:+ newline +:+ "def " +:+ n +:+ "("
        +:+ join "," (map rendered_arg a) +:+ ") -> "
        +:+ normalized_type (p_type r) +:+ ":..." +:+ newline)
  ∧ PluginSpec.format_prompt
      (specification_object
         (spec_with {| p_name := name'; p_type := p_type r;
                       p_required := required'; p_description := description' |}))
    = PluginSpec.format_prompt (specification_object (spec_with r)).
Proof.
  intros spec_with. rewrite !format_prompt_typed. split; reflexivity.
Qed.


Lemma normalized_alias (t alias short : string) :
  (alias, short) = ("string", "str") ∨ (alias, short) = ("integer", "int") →
  lower t = alias → normalized_type t = short.
Proof.
  unfold normalized_type. intros [E|E] ->; by inversion E.
Qed.

(** C5, as stated, fails: a required parameter declared with type ["string"]
    is rendered with the annotation ["Any"], and ["str"] occurs nowhere in
    its rendering. *)
Lemma required_string_parameter_renders_Any :
  PluginSpec.format_arg_val
    (parameter_object
       {| p_name := "x"; p_type := "string"; p_required := true;
          p_description := Some "d" |})
  = Ok (newline +:+ "# d" +:+ newline +:+ "x: Any")
  ∧ String.index 0 "str" (newline +:+ "# d" +:+ newline +:+ "x: Any") = None.
Proof. split; vm_compute; reflexivity. Qed.

(** The description of the plugin itself is put behind the first comment
    mark as it is: its later lines are not folded. *)
Example plugin_description_not_folded :
  PluginSpec.format_prompt
    (specification_object
       {| s_name := "f"; s_description := "one" +:+ newline +:+ "two";
          s_args := []; s_returns := []; s_embedding := [] |})
  = Ok ("# one" +:+ newline +:+ "two" +:+ newline +:+ "def f() -> None:..."
        +:+ newline).
Proof. vm_compute. reflexivity. Qed.

(** C5, amended: a type that is ["string"] or ["integer"] up to the case of
    its letters is rendered as ["str"] or ["int"] wherever the type of a
    value is rendered, that is as [Optional[str]] or [Optional[int]] for a
    parameter that is not required, in the member of a tuple of return
    values, and as the return type of a single return value.  The
    description of a parameter, and of a return value in a tuple, is
    rendered without the white space around it, each of its lines after the
    first behind ["# "]. *)
Theorem alias_normalization_and_folding :
  (∀ (p : TypedParameter) (alias short : string),
     (alias, short) = ("string", "str") ∨ (alias, short) = ("integer", "int") →
     lower (p_type p) = alias →
     (p_required p = false →
      PluginSpec.format_arg_val (parameter_object p)
      = Ok (newline +:+ "# " +:+ folded (rendered_description p) +:+ newline
            +:+ p_name p +:+ ": Optional[" +:+ short +:+ "]"))
     ∧ PluginSpec.format_return_val (parameter_object p)
       = Ok (newline +:+ "# " +:+ p_name p +:+ ": "
             +:+ folded (rendered_description p) +:+ newline +:+ short)
     ∧ ∀ n d a e,
         PluginSpec.format_prompt
           (specification_object
              {| s_name := n; s_description := d; s_args := a; s_returns := [p];
                 s_embedding := e |})
         = Ok ("# " +:+ d +:+ newline +:+ "def " +:+ n +:+ "("
               +:+ join "," (map rendered_arg a) +:+ ") -> " +:+ short +:+ ":..."
               +:+ newline))
  ∧ (∀ p : TypedParameter,
       PluginSpec.format_arg_val (parameter_object p)
       = Ok (newline +:+ "# "
             +:+ join (newline +:+ "# ")
                   (split_char LF (strip (default "" (p_description p))))
             +:+ newline +:+ p_name p +:+ ": " +:+ annotation p)
       ∧ PluginSpec.format_return_val (parameter_object p)
         = Ok (newline +:+ "# " +:+ p_name p +:+ ": "
               +:+ join (newline +:+ "# ")
                     (split_char LF (strip (default "" (p_description p))))
               +:+ newline +:+ normalized_type (p_type p))).
Proof.
  split.
  - intros p alias short Halias Hlow.
    pose proof (normalized_alias _ _ _ Halias Hlow) as Hnorm.
    split; [|split].
    + intros Hreq. rewrite format_arg_val_typed.
      unfold rendered_arg, annotation. rewrite Hreq, Hnorm.
      destruct Halias as [E|E]; inversion E; subst; reflexivity.
    + rewrite format_return_val_typed. unfold rendered_member. by rewrite Hnorm.
    + intros n d a e. rewrite format_prompt_typed.
      unfold rendered_prompt. cbn [s_returns rendered_return_type s_name
        s_description s_args]. by rewrite Hnorm.
  - intros p. by rewrite format_arg_val_typed, format_return_val_typed.
Qed.

Lemma alias_normalization_and_folding_witness :
  PluginSpec.format_arg_val
    (parameter_object
       {| p_name := "col"; p_type := "String"; p_required := false;
          p_description := Some ("  first" +:+ newline +:+ "second ") |})
  = Ok (newline +:+ "# first" +:+ newline +:+ "# second" +:+ newline
        +:+ "col: Optional[str]").
Proof.
  exact (proj1 (proj1 alias_normalization_and_folding
                  {| p_name := "col"; p_type := "String"; p_required := false;
                     p_description := Some ("  first" +:+ newline +:+ "second ") |}
                  "string" "str" (or_introl eq_refl) eq_refl) eq_refl).
Defined.


(** ** Parsing declarative records *)

Section parsing.
Implicit Types (d : list (string * value)) (v : value).

Lemma getitem_dict k d :
  getitem (VDict d) k
  = match dict_lookup k d with Some x => Ok x | None => Raise (KeyError k) end.
Proof. reflexivity. Qed.

(** An optional key: [d[k] if k in d else dflt]. *)
Lemma optional_field k d (dflt : value) :
  (b ← contains k (VDict d); if b : bool then getitem (VDict d) k else Ok dflt)
  = Ok (default dflt (dict_lookup k d)).
Proof.
  cbn. unfold has_key. by destruct (dict_lookup k d).
Qed.

Lemma parameter_from_dict d n ds :
  dict_lookup "name" d = Some n →
  dict_lookup "description" d = Some ds →
  PluginParameter.from_dict (VDict d)
  = Ok {| PluginParameter.name := n;
          PluginParameter.type := default (VStr "Any") (dict_lookup "type" d);
          PluginParameter.required :=
            default (VBool false) (dict_lookup "required" d);
          PluginParameter.description := ds |}.
Proof.
  intros Hn Hd. unfold PluginParameter.from_dict.
  rewrite (optional_field "required" d (VBool false)).
  rewrite (optional_field "type" d (VStr "Any")).
  rewrite !getitem_dict, Hn, Hd. reflexivity.
Qed.

(** Parsing a parameter succeeds exactly on a mapping that has a [name]
    and a [description]. *)
Lemma parameter_from_dict_ok v :
  is_ok (PluginParameter.from_dict v)
  = has_field v "name" && has_field v "description".
Proof.
  destruct v as [| | | | |d]; try reflexivity.
  unfold has_field. rewrite !getitem_dict.
  destruct (dict_lookup "name" d) as [n|] eqn:Hn;
    [|unfold PluginParameter.from_dict; by rewrite (getitem_dict "name"), Hn].
  destruct (dict_lookup "description" d) as [ds|] eqn:Hd;
    [|unfold PluginParameter.from_dict;
      by rewrite (getitem_dict "name"), (getitem_dict "description"), Hn, Hd].
  by rewrite (parameter_from_dict d n ds).
Qed.

Lemma mapM_is_ok {A B} (f : A → result B) (g : A → bool) (l : list A) :
  (∀ x, is_ok (f x) = g x) → is_ok (mapM f l) = forallb g l.
Proof.
  intros Hfg. induction l as [|x l IH]; [reflexivity|]. cbn [mapM forallb].
  rewrite <- Hfg, <- IH. destruct (f x); cbn; [|reflexivity].
  by destruct (mapM f l).
Qed.

Lemma parameter_list_ok v k :
  is_ok (ps ← getitem v k; l ← iter ps; mapM PluginParameter.from_dict l)
  = parameters_ok v k.
Proof.
  unfold parameters_ok. destruct (getitem v k) as [ps|]; [|reflexivity]. cbn.
  destruct (iter ps) as [l|]; [|reflexivity]. cbn.
  apply mapM_is_ok, parameter_from_dict_ok.
Qed.

(** When parsing a specification succeeds. *)
Lemma spec_from_dict_ok v :
  is_ok (PluginSpec.from_dict v)
  = has_field v "name" && has_field v "description"
    && parameters_ok v "parameters" && parameters_ok v "returns".
Proof.
  unfold PluginSpec.from_dict, has_field.
  rewrite <- !parameter_list_ok.
  destruct (getitem v "name"); [|reflexivity].
  destruct (getitem v "description"); [|reflexivity]. cbn.
  destruct (ps ← getitem v "parameters"; l ← iter ps;
            mapM PluginParameter.from_dict l); [|reflexivity].
  cbn.
  destruct (rs ← getitem v "returns"; l ← iter rs;
            mapM PluginParameter.from_dict l); reflexivity.
Qed.
End parsing.

Lemma is_ok_true {A} (m : result A) : is_ok m = true → ∃ a, m = Ok a.
Proof. destruct m; [eauto|discriminate]. Qed.

Lemma mapM_Ok_Forall2 {A B} (f : A → result B) (l : list A) (k : list B) :
  mapM f l = Ok k → Forall2 (λ x y, f x = Ok y) l k.
Proof.
  revert k. induction l as [|x l IH]; intros k; cbn [mapM].
  - intros [= <-]. constructor.
  - destruct (f x) as [y|] eqn:Hx; [|discriminate]. cbn.
    destruct (mapM f l) as [k'|]; [|discriminate]. cbn.
    intros [= <-]. constructor; [done|]. by apply IH.
Qed.

Lemma parameters_ok_list (v : value) (k : string) (l : list value) :
  getitem v k = Ok (VList l) →
  parameters_ok v k
  = forallb (λ p, has_field p "name" && has_field p "description") l.
Proof. unfold parameters_ok. by intros ->. Qed.

Lemma parameter_list_parsed (v : value) (k : string) (l : list value) :
  getitem v k = Ok (VList l) →
  (∀ p, p ∈ l → has_field p "name" = true ∧ has_field p "description" = true) →
  ∃ ps, mapM PluginParameter.from_dict l = Ok ps
        ∧ Forall2 (λ p q, PluginParameter.from_dict p = Ok q) l ps.
Proof.
  intros Hk Hall.
  destruct (is_ok_true (mapM PluginParameter.from_dict l)) as [ps Hps].
  - rewrite (mapM_is_ok _ _ _ parameter_from_dict_ok).
    apply forallb_forall. intros p Hp%list_elem_of_In.
    destruct (Hall p Hp) as [-> ->]. reflexivity.
  - exists ps. split; [done|]. by apply mapM_Ok_Forall2.
Qed.

(** C3, as stated, fails: this record has all four required fields and no
    element that lacks anything, and parsing it raises [TypeError], because
    the value of [parameters] (an empty entry in the file, read as [None])
    cannot be iterated. *)
Lemma null_parameters_raise :
  let d := VDict [("name", VStr "p"); ("description", VStr "d");
                  ("parameters", VNone); ("returns", VList [])] in
  has_field d "name" = true ∧ has_field d "description" = true
  ∧ has_field d "parameters" = true ∧ has_field d "returns" = true
  ∧ PluginSpec.from_dict d = Raise TypeError.
Proof. repeat split; reflexivity. Qed.

(** C3, amended: parsing a record raises an error whenever one of [name],
    [description], [parameters], [returns] is absent, or an element of
    [parameters] or [returns] lacks a [name] or a [description]; when all
    of these are present and [parameters] and [returns] are sequences,
    parsing succeeds and returns the specification with that name and
    description and the parsed parameters in order. *)
Theorem parse_fails_or_succeeds (d : value) :
  (has_field d "name" = false ∨ has_field d "description" = false
   ∨ has_field d "parameters" = false ∨ has_field d "returns" = false →
   is_ok (PluginSpec.from_dict d) = false)
  ∧ (∀ k l p,
       k = "parameters" ∨ k = "returns" →
       getitem d k = Ok (VList l) → p ∈ l →
       has_field p "name" = false ∨ has_field p "description" = false →
       is_ok (PluginSpec.from_dict d) = false)
  ∧ (∀ n ds ps rs,
       getitem d "name" = Ok n → getitem d "description" = Ok ds →
       getitem d "parameters" = Ok (VList ps) →
       getitem d "returns" = Ok (VList rs) →
       (∀ p, p ∈ ps ∨ p ∈ rs →
             has_field p "name" = true ∧ has_field p "description" = true) →
       ∃ a r,
         PluginSpec.from_dict d
         = Ok {| PluginSpec.name := n; PluginSpec.description := ds;
                 PluginSpec.args := a; PluginSpec.returns := r;
                 PluginSpec.embedding := [] |}
         ∧ Forall2 (λ p q, PluginParameter.from_dict p = Ok q) ps a
         ∧ Forall2 (λ p q, PluginParameter.from_dict p = Ok q) rs r).
Proof.
  split; [|split].
  - rewrite spec_from_dict_ok. unfold parameters_ok, has_field.
    intros [H|[H|[H|H]]].
    + by rewrite H.
    + rewrite H. by rewrite andb_false_r.
    + destruct (getitem d "parameters"); [discriminate|].
      by rewrite andb_false_r.
    + destruct (getitem d "returns"); [discriminate|].
      by rewrite andb_false_r.
  - intros k l p Hk Hl Hp Hlack. rewrite spec_from_dict_ok.
    assert (parameters_ok d k = false) as Hbad.
    { rewrite (parameters_ok_list _ _ _ Hl).
      destruct (forallb _ l) eqn:Hall; [|reflexivity].
      rewrite forallb_forall in Hall.
      apply list_elem_of_In, Hall, andb_true_iff in Hp.
      destruct Hp as [H1 H2], Hlack as [H|H]; congruence. }
    destruct Hk as [-> | ->]; rewrite Hbad; by rewrite ?andb_false_r.
  - intros n ds ps rs Hn Hds Hps Hrs Hall.
    destruct (parameter_list_parsed d "parameters" ps Hps) as [a [Ha Ha2]];
      [intros p Hp; apply Hall; by left|].
    destruct (parameter_list_parsed d "returns" rs Hrs) as [r [Hr Hr2]];
      [intros p Hp; apply Hall; by right|].
    exists a, r. split; [|done].
    unfold PluginSpec.from_dict. rewrite Hn, Hds, Hps, Hrs. cbn.
    rewrite Ha. cbn. rewrite Hr. reflexivity.
Qed.

Lemma parse_fails_or_succeeds_witness :
  ∃ a r,
    PluginSpec.from_dict
      (VDict [("name", VStr "p"); ("description", VStr "d");
              ("parameters",
               VList [VDict [("name", VStr "x"); ("description", VStr "dx")]]);
              ("returns", VList [])])
    = Ok {| PluginSpec.name := VStr "p"; PluginSpec.description := VStr "d";
            PluginSpec.args := a; PluginSpec.returns := r;
            PluginSpec.embedding := [] |}
    ∧ Forall2 (λ p q, PluginParameter.from_dict p = Ok q)
        [VDict [("name", VStr "x"); ("description", VStr "dx")]] a
    ∧ Forall2 (λ p q, PluginParameter.from_dict p = Ok q) [] r.
Proof.
  apply (proj2 (proj2 (parse_fails_or_succeeds
           (VDict [("name", VStr "p"); ("description", VStr "d");
                   ("parameters",
                    VList [VDict [("name", VStr "x"); ("description", VStr "dx")]]);
                   ("returns", VList [])])))
           (VStr "p") (VStr "d") _ _ eq_refl eq_refl eq_refl eq_refl).
  intros p [Hp|Hp].
  - apply list_elem_of_singleton in Hp as ->. by split.
  - by apply not_elem_of_nil in Hp.
Defined.

(** ** Loading an entry *)

Lemma from_yaml_dict (env : collaborators) (path : string)
    (d : list (string * value)) (s : PluginSpec.t) :
  read_yaml env path = Ok (VDict d) →
  PluginSpec.from_dict (VDict d) = Ok s →
  PluginEntry.from_yaml env path
  = Ok (Some {| PluginEntry.name := PluginSpec.name s;
                PluginEntry.impl := default (PluginSpec.name s) (dict_lookup "code" d);
                PluginEntry.spec := s;
                PluginEntry.config := default (VDict []) (dict_lookup "configurations" d);
                PluginEntry.required := default (VBool false) (dict_lookup "required" d);
                PluginEntry.enabled := default (VBool true) (dict_lookup "enabled" d) |}).
Proof.
  intros Hread Hspec. unfold PluginEntry.from_yaml.
  rewrite Hread. cbn [mbind result_bind negb orb]. rewrite Hspec. reflexivity.
Qed.

(** Without a specification there is no entry. *)
Lemma from_yaml_raises (env : collaborators) (path : string) :
  (∀ content, read_yaml env path = Ok content →
              is_ok (PluginSpec.from_dict content) = false) →
  is_ok (PluginEntry.from_yaml env path) = false.
Proof.
  intros H. unfold PluginEntry.from_yaml.
  destruct (read_yaml env path) as [content|]; [|reflexivity].
  specialize (H content eq_refl). cbn [mbind result_bind negb orb].
  destruct (PluginSpec.from_dict content); [discriminate|reflexivity].
Qed.

(** C6: a parameter without a [type] field is parsed with the type ["Any"],
    one without a [required] field with [required = False]; an entry loaded
    from a record without a [code] field has the plugin name as its
    implementation reference, without a [required] field it has
    [required = False], and without an [enabled] field [enabled = True]. *)
Theorem defaults_at_load_time :
  (∀ d n ds,
     dict_lookup "name" d = Some n → dict_lookup "description" d = Some ds →
     ∃ p, PluginParameter.from_dict (VDict d) = Ok p
          ∧ (dict_lookup "type" d = None → PluginParameter.type p = VStr "Any")
          ∧ (dict_lookup "required" d = None →
             PluginParameter.required p = VBool false))
  ∧ (∀ env path d s,
       read_yaml env path = Ok (VDict d) →
       PluginSpec.from_dict (VDict d) = Ok s →
       ∃ e, PluginEntry.from_yaml env path = Ok (Some e)
            ∧ PluginEntry.name e = PluginSpec.name s
            ∧ (dict_lookup "code" d = None →
               PluginEntry.impl e = PluginSpec.name s)
            ∧ (dict_lookup "required" d = None →
               PluginEntry.required e = VBool false)
            ∧ (dict_lookup "enabled" d = None →
               PluginEntry.enabled e = VBool true)).
Proof.
  split.
  - intros d n ds Hn Hds. eexists. split; [by apply parameter_from_dict|].
    cbn. split; by intros ->.
  - intros env path d s Hread Hspec. eexists.
    split; [by apply from_yaml_dict|]. cbn.
    split; [reflexivity|]. repeat split; by intros ->.
Qed.

(** C8, as stated, fails: a record whose [name] is the empty string is
    parsed, and the parameter it yields has the empty name. *)
Lemma empty_name_is_parsed :
  PluginParameter.from_dict (VDict [("name", VStr ""); ("description", VStr "d")])
  = Ok {| PluginParameter.name := VStr ""; PluginParameter.type := VStr "Any";
          PluginParameter.required := VBool false;
          PluginParameter.description := VStr "d" |}.
Proof. reflexivity. Qed.

(** C8, amended: the name of a parameter produced by parsing a record is
    the value of the [name] field of that record, unchanged and unchecked;
    it is a non-empty string exactly when that field is one. *)
Theorem parsed_name_is_the_field (d : value) (p : PluginParameter.t) :
  PluginParameter.from_dict d = Ok p →
  getitem d "name" = Ok (PluginParameter.name p)
  ∧ ((∃ s, PluginParameter.name p = VStr s ∧ s ≠ "")
     ↔ (∃ s, getitem d "name" = Ok (VStr s) ∧ s ≠ "")).
Proof.
  intros Hp.
  assert (getitem d "name" = Ok (PluginParameter.name p)) as Hname.
  { unfold PluginParameter.from_dict in Hp.
    destruct (getitem d "name") as [n|]; [|discriminate]. cbn in Hp.
    destruct (getitem d "description") as [ds|]; [|discriminate]. cbn in Hp.
    destruct (contains "required" d ≫= _) as [rq|]; [|discriminate]. cbn in Hp.
    destruct (contains "type" d ≫= _) as [ty|]; [|discriminate]. cbn in Hp.
    by inversion Hp. }
  split; [done|]. rewrite Hname.
  split; intros [s [Hs Hne]]; exists s; split; congruence.
Qed.

Lemma parsed_name_is_the_field_witness :
  getitem (VDict [("name", VStr "x"); ("description", VNone)]) "name"
  = Ok (VStr "x").
Proof.
  exact (proj1 (parsed_name_is_the_field
                  (VDict [("name", VStr "x"); ("description", VNone)])
                  {| PluginParameter.name := VStr "x";
                     PluginParameter.type := VStr "Any";
                     PluginParameter.required := VBool false;
                     PluginParameter.description := VNone |} eq_refl)).
Defined.

(** ** Loading a component *)

Section load_component.
Variables (env : collaborators) (self : PluginRegistry.t) (path : string).
Implicit Types (log : list string) (e : PluginEntry.t).

Lemma from_yaml_embedding e :
  PluginEntry.from_yaml env path = Ok (Some e) →
  PluginSpec.embedding (PluginEntry.spec e) = [].
Proof.
  unfold PluginEntry.from_yaml.
  destruct (read_yaml env path) as [content|]; [|discriminate].
  cbn [mbind result_bind negb orb].
  destruct (PluginSpec.from_dict content) as [s|] eqn:Hs; [|discriminate].
  step.
  destruct (get content "code" _); [|discriminate]. step.
  destruct (get content "configurations" _); [|discriminate]. step.
  destruct (get content "required" _); [|discriminate]. step.
  destruct (get content "enabled" _); [|discriminate]. step.
  intros [= <-]. cbn.
  unfold PluginSpec.from_dict in Hs.
  destruct (getitem content "name"); [|discriminate]. step_in Hs.
  destruct (getitem content "description"); [|discriminate]. step_in Hs.
  destruct (getitem content "parameters" ≫= _); [|discriminate]. step_in Hs.
  destruct (getitem content "returns" ≫= _); [|discriminate]. step_in Hs.
  by inversion Hs.
Qed.

Lemma load_raises log :
  is_ok (PluginEntry.from_yaml env path) = false →
  is_ok (PluginRegistry._load_component env self path log).1 = false
  ∧ (PluginRegistry._load_component env self path log).2 = log.
Proof.
  unfold PluginRegistry._load_component; unfold_io.
  by destruct (PluginEntry.from_yaml env path).
Qed.

Lemma load_disabled log e :
  PluginEntry.from_yaml env path = Ok (Some e) →
  truthy (PluginEntry.enabled e) = false →
  PluginRegistry._load_component env self path log
  = (Raise (Exception ("plugin " +:+ str (PluginEntry.name e) +:+ " is disabled")),
     log).
Proof.
  intros Hy Hen. unfold PluginRegistry._load_component; unfold_io.
  rewrite Hy, Hen. reflexivity.
Qed.

Lemma load_without_selection log e :
  PluginRegistry.enable_auto_plugin_selection self = false →
  PluginEntry.from_yaml env path = Ok (Some e) →
  truthy (PluginEntry.enabled e) = true →
  PluginRegistry._load_component env self path log
  = (Ok (PluginEntry.name e, e), log).
Proof.
  intros Hoff Hy Hen. unfold PluginRegistry._load_component; unfold_io.
  rewrite Hy, Hen, Hoff. reflexivity.
Qed.

Lemma load_with_selection log e n d :
  PluginRegistry.enable_auto_plugin_selection self = true →
  PluginEntry.from_yaml env path = Ok (Some e) →
  truthy (PluginEntry.enabled e) = true →
  PluginEntry.name e = VStr n →
  PluginSpec.description (PluginEntry.spec e) = VStr d →
  PluginRegistry._load_component env self path log
  = (match get_embedding env (n +:+ ": " +:+ d) with
     | Ok v => Ok (VStr n, PluginEntry.set_embedding v e)
     | Raise x => Raise x
     end, log ++ [n +:+ ": " +:+ d]).
Proof.
  intros Hon Hy Hen Hn Hd.
  unfold PluginRegistry._load_component; unfold_io.
  rewrite Hy, Hen, Hon. cbn [negb]. rewrite Hn, Hd. cbn [add_str result_bind str_add].
  unfold request_embedding. rewrite app_assoc_str.
  destruct (get_embedding env (n +:+ ": " +:+ d)); [|reflexivity].
  unfold mret, io_ret. cbn [PluginEntry.set_embedding PluginEntry.name].
  by rewrite Hn.
Qed.

(** What a successful load returns. *)
Lemma load_ok log log' k e :
  PluginRegistry._load_component env self path log = (Ok (k, e), log') →
  k = PluginEntry.name e ∧ truthy (PluginEntry.enabled e) = true
  ∧ ∃ e0, PluginEntry.from_yaml env path = Ok (Some e0)
          ∧ PluginEntry.enabled e = PluginEntry.enabled e0.
Proof.
  unfold PluginRegistry._load_component; unfold_io.
  destruct (PluginEntry.from_yaml env path) as [[e0|]|]; [|discriminate..].
  destruct (truthy (PluginEntry.enabled e0)) eqn:Hen; [|discriminate].
  cbn [negb].
  destruct (PluginRegistry.enable_auto_plugin_selection self).
  - destruct (result_bind _ _ _ _) as [text|]; [|discriminate].
    unfold request_embedding.
    destruct (get_embedding env text) as [v|]; [|discriminate].
    cbn. intros [= <- <- _]. cbn. eauto.
  - cbn. intros [= <- <- _]. eauto.
Qed.
End load_component.

(** ** The registry *)

Section registry_facts.
Context {T : Type}.
Variable load : string → io (string * T).
(** A property of the components that every successful load establishes. *)
Variable P : string → T → Prop.
Hypothesis load_P :
  ∀ path log k c log', load path log = (Ok (k, c), log') → P k c.

Lemma load_all_total paths (acc : gmap string T) failed log :
  ∃ m f log',
    ComponentRegistry.load_all load paths acc failed log = (Ok (m, f), log').
Proof.
  revert acc failed log. induction paths as [|path rest IH]; intros acc failed log.
  - by exists acc, failed, log.
  - cbn [ComponentRegistry.load_all]. unfold mbind, io_bind, attempt.
    destruct (load path log) as [[[k c]|e] log1]; apply IH.
Qed.

Lemma load_all_P paths (acc : gmap string T) failed log m f log' :
  all_P P acc →
  ComponentRegistry.load_all load paths acc failed log = (Ok (m, f), log') →
  all_P P m.
Proof.
  revert acc failed log. induction paths as [|path rest IH]; intros acc failed log Hacc.
  - cbn. by intros [= <- _ _].
  - cbn [ComponentRegistry.load_all]. unfold mbind, io_bind, attempt.
    destruct (load path log) as [[[k c]|e] log1] eqn:Hload.
    + apply IH. intros k' c'. destruct (decide (k = k')) as [<-|Hne].
      * rewrite lookup_insert_eq. intros [= <-]. by eapply load_P.
      * rewrite lookup_insert_ne by done. apply Hacc.
    + by apply IH.
Qed.

Variables (ttl : option Z) (policy : bool).

Lemma refresh_if_stale_total files now (r : ComponentRegistry.t T) log :
  ∃ r' log',
    ComponentRegistry.refresh_if_stale load ttl policy files now r log
    = (Ok r', log').
Proof.
  unfold ComponentRegistry.refresh_if_stale, ComponentRegistry.refresh.
  destruct (ComponentRegistry.is_stale ttl policy now r); [|by eexists _, _].
  unfold mbind, io_bind.
  destruct (load_all_total files ∅ [] log) as (m & f & log' & ->).
  by eexists _, _.
Qed.

Lemma refresh_if_stale_P files now (r r' : ComponentRegistry.t T) log log' :
  all_P P (ComponentRegistry.snapshot r) →
  ComponentRegistry.refresh_if_stale load ttl policy files now r log
  = (Ok r', log') →
  all_P P (ComponentRegistry.snapshot r').
Proof.
  intros Hr. unfold ComponentRegistry.refresh_if_stale, ComponentRegistry.refresh.
  destruct (ComponentRegistry.is_stale ttl policy now r);
    [|by intros [= <- _]].
  unfold mbind, io_bind.
  destruct (ComponentRegistry.load_all load files ∅ [] log)
    as [[[m f]|e] log1] eqn:Hall; [|discriminate].
  cbn. intros [= <- _]. cbn.
  eapply load_all_P; [|exact Hall]. intros k c. by rewrite lookup_empty.
Qed.
End registry_facts.

Lemma load_plugin_loaded env self path log k e log' :
  load_plugin env self path log = (Ok (k, e), log') → loaded self k e.
Proof.
  unfold load_plugin; unfold_io.
  destruct (PluginRegistry._load_component env self path log)
    as [[[n e1]|x] log1] eqn:Hload; [|discriminate].
  destruct n as [| | |s| |]; try discriminate. cbn.
  intros [= <- <- <-]. split; [|by eauto].
  by destruct (load_ok _ _ _ _ _ _ _ Hload) as (_ & ? & _).
Qed.

Lemma reachable_loaded self policy r :
  reachable self policy r →
  all_P (loaded self) (ComponentRegistry.snapshot r).
Proof.
  induction 1 as [|r w log r' log' _ IH Hstep].
  - intros k e. cbn. by rewrite lookup_empty.
  - eapply refresh_if_stale_P; [|exact IH|exact Hstep].
    intros path l k c l'. apply load_plugin_loaded.
Qed.

Lemma truthy_not_False (v : value) : truthy v = true → v ≠ VBool false.
Proof. by intros H ->. Qed.

(** C1: loading from a file whose record has [enabled: false] raises, with
    the message that the plugin is disabled when the record is otherwise a
    specification; every entry in the index of a reachable registry was
    returned by a successful load and is enabled; and so is every entry that
    [list()] returns, at any time and whatever the files are. *)
Theorem disabled_plugins_are_not_registered (self : PluginRegistry.t) (policy : bool) :
  (∀ env path d log,
     read_yaml env path = Ok (VDict d) →
     dict_lookup "enabled" d = Some (VBool false) →
     is_ok (PluginRegistry._load_component env self path log).1 = false
     ∧ ∀ s, PluginSpec.from_dict (VDict d) = Ok s →
            PluginRegistry._load_component env self path log
            = (Raise (Exception ("plugin " +:+ str (PluginSpec.name s)
                                 +:+ " is disabled")), log))
  ∧ (∀ r, reachable self policy r →
          ∀ k e, ComponentRegistry.snapshot r !! k = Some e →
                 truthy (PluginEntry.enabled e) = true
                 ∧ PluginEntry.enabled e ≠ VBool false
                 ∧ ∃ env path log log',
                     PluginRegistry._load_component env self path log
                     = (Ok (VStr k, e), log'))
  ∧ (∀ r w log, reachable self policy r →
       ∃ es r' log',
         plugin_list self policy w r log = (Ok (es, r'), log')
         ∧ reachable self policy r'
         ∧ ∀ e, e ∈ es → truthy (PluginEntry.enabled e) = true
                         ∧ PluginEntry.enabled e ≠ VBool false).
Proof.
  split; [|split].
  - intros env path d log Hread Hen.
    destruct (PluginSpec.from_dict (VDict d)) as [s|x] eqn:Hs.
    + pose proof (from_yaml_dict env path d s Hread Hs) as Hy.
      rewrite (load_disabled env self path log _ Hy); [|by rewrite Hen].
      split; [reflexivity|]. by intros ? [= <-].
    + split; [|discriminate].
      apply load_raises, from_yaml_raises.
      intros content. rewrite Hread. intros [= <-]. by rewrite Hs.
  - intros r Hr k e Hk.
    destruct (reachable_loaded _ _ _ Hr k e Hk) as [Hen Hload].
    auto using truthy_not_False.
  - intros r w log Hr. unfold plugin_list, ComponentRegistry.list, mbind, io_bind.
    destruct (refresh_if_stale_total (load_plugin (env w) self)
                (PluginRegistry.ttl self) policy (files w) (now w) r log)
      as (r' & log' & Hstep).
    rewrite Hstep. eexists _, r', log'. split; [reflexivity|].
    assert (reachable self policy r') as Hr' by (by econstructor).
    split; [done|]. intros e (k & He)%list_elem_of_fmap.
    destruct He as [-> He]. destruct k as [k e']. cbn.
    apply elem_of_map_to_list in He.
    destruct (reachable_loaded _ _ _ Hr' k e' He) as [Hen _].
    auto using truthy_not_False.
Qed.

(** C4: with auto selection enabled, a load that gets past the parse and
    the [enabled] check sends exactly one text to the embedding
    collaborator, the name, [": "] and the description concatenated, and the
    entry it returns carries the vector that came back; with auto selection
    disabled no load sends anything, and the entry a load returns has the
    empty embedding. *)
Theorem embedding_requested_at_load
    (env : collaborators) (self : PluginRegistry.t) (path : string)
    (log : list string) :
  (PluginRegistry.enable_auto_plugin_selection self = true →
   ∀ e n d v,
     PluginEntry.from_yaml env path = Ok (Some e) →
     truthy (PluginEntry.enabled e) = true →
     PluginEntry.name e = VStr n →
     PluginSpec.description (PluginEntry.spec e) = VStr d →
     get_embedding env (n +:+ ": " +:+ d) = Ok v →
     PluginRegistry._load_component env self path log
     = (Ok (VStr n, PluginEntry.set_embedding v e), log ++ [n +:+ ": " +:+ d])
     ∧ PluginSpec.embedding (PluginEntry.spec (PluginEntry.set_embedding v e)) = v)
  ∧ (PluginRegistry.enable_auto_plugin_selection self = false →
     (PluginRegistry._load_component env self path log).2 = log
     ∧ ∀ k e, (PluginRegistry._load_component env self path log).1 = Ok (k, e) →
              PluginEntry.from_yaml env path = Ok (Some e)
              ∧ PluginSpec.embedding (PluginEntry.spec e) = []).
Proof.
  split.
  - intros Hon e n d v Hy Hen Hn Hd Hv.
    rewrite (load_with_selection env self path log e n d Hon Hy Hen Hn Hd), Hv.
    done.
  - intros Hoff.
    unfold PluginRegistry._load_component; unfold_io.
    destruct (PluginEntry.from_yaml env path) as [[e0|]|] eqn:Hy;
      [|split; [reflexivity|discriminate]..].
    destruct (truthy (PluginEntry.enabled e0)); cbn [negb];
      [|split; [reflexivity|discriminate]].
    rewrite Hoff. cbn. split; [reflexivity|].
    intros k e [= _ <-]. split; [reflexivity|].
    by apply (from_yaml_embedding env path).
Qed.

(** ** Loading and listing sample files *)

Lemma disabled_plugins_are_not_registered_witness :
  PluginRegistry._load_component
    (constant_collaborators (sql_record [("enabled", VBool false)]) [])
    (sample_registry true) "sql.yaml" []
  = (Raise (Exception "plugin sql is disabled"), []).
Proof.
  exact (proj2 (proj1 (disabled_plugins_are_not_registered (sample_registry true) false)
                  (constant_collaborators (sql_record [("enabled", VBool false)]) [])
                  "sql.yaml" _ [] eq_refl eq_refl) _ eq_refl).
Defined.

Lemma embedding_requested_at_load_witness :
  (PluginRegistry._load_component
     (constant_collaborators (sql_record []) [0.5%float; 0.25%float])
     (sample_registry true) "sql.yaml" []).2
  = ["sql: query a database"].
Proof.
  destruct (proj1 (embedding_requested_at_load
                     (constant_collaborators (sql_record []) [0.5%float; 0.25%float])
                     (sample_registry true) "sql.yaml" []) eq_refl
              _ "sql" "query a database" [0.5%float; 0.25%float]
              eq_refl eq_refl eq_refl eq_refl eq_refl) as [H _].
  rewrite H. reflexivity.
Defined.

Lemma defaults_at_load_time_witness :
  ∃ e, PluginEntry.from_yaml (constant_collaborators (sql_record []) []) "sql.yaml"
       = Ok (Some e)
       ∧ PluginEntry.impl e = VStr "sql"
       ∧ PluginEntry.required e = VBool false
       ∧ PluginEntry.enabled e = VBool true.
Proof.
  destruct (proj2 defaults_at_load_time
              (constant_collaborators (sql_record []) []) "sql.yaml" _ _
              eq_refl eq_refl) as (e & He & _ & Hi & Hr & Hen).
  exists e. split; [exact He|].
  split; [exact (Hi eq_refl)|]. split; [exact (Hr eq_refl)|exact (Hen eq_refl)].
Defined.

(** Listing a directory with an enabled and a disabled plugin. *)
Example list_two_files :
  listed_names
    (plugin_list (sample_registry false) false
       {| files := ["a.yaml"; "b.yaml"]; env := two_files; now := 0 |}
       ComponentRegistry.empty [])
  = Some [VStr "sql"].
Proof. vm_compute. reflexivity. Qed.

(** * Further properties of the module *)

(** ** Parsing a parameter *)

(** [PluginParameter.from_dict] in closed form. *)
Lemma parameter_from_dict_eq (v : value) :
  PluginParameter.from_dict v
  = match v with
    | VDict d =>
        match dict_lookup "name" d with
        | None => Raise (KeyError "name")
        | Some n =>
            match dict_lookup "description" d with
            | None => Raise (KeyError "description")
            | Some ds =>
                Ok {| PluginParameter.name := n;
                      PluginParameter.type :=
                        default (VStr "Any") (dict_lookup "type" d);
                      PluginParameter.required :=
                        default (VBool false) (dict_lookup "required" d);
                      PluginParameter.description := ds |}
            end
        end
    | _ => Raise TypeError
    end.
Proof.
  destruct v as [| | | | |d]; try reflexivity.
  destruct (dict_lookup "name" d) as [n|] eqn:Hn.
  - destruct (dict_lookup "description" d) as [ds|] eqn:Hd.
    + by apply parameter_from_dict.
    + unfold PluginParameter.from_dict.
      by rewrite (getitem_dict "name"), (getitem_dict "description"), Hn, Hd.
  - unfold PluginParameter.from_dict. by rewrite (getitem_dict "name"), Hn.
Qed.

(** X1: the only errors of [PluginParameter.from_dict] are [TypeError] for
    a record that is not a mapping, [KeyError('name')] for a mapping without
    a [name], and [KeyError('description')] for a mapping with a [name] and
    without a [description]; a missing [type] or [required] never raises. *)
Theorem parameter_from_dict_errors (v : value) (e : exn) :
  PluginParameter.from_dict v = Raise e →
  (is_dict v = false ∧ e = TypeError)
  ∨ (is_dict v = true ∧ has_field v "name" = false ∧ e = KeyError "name")
  ∨ (is_dict v = true ∧ has_field v "name" = true
     ∧ has_field v "description" = false ∧ e = KeyError "description").
Proof.
  rewrite parameter_from_dict_eq. unfold has_field.
  destruct v as [| | | | |d]; try (intros [= <-]; by left).
  rewrite !getitem_dict.
  destruct (dict_lookup "name" d); [|intros [= <-]; right; by left].
  destruct (dict_lookup "description" d); [discriminate|].
  intros [= <-]. right. by right.
Qed.

Lemma parameter_from_dict_errors_witness :
  (is_dict (VDict [("description", VStr "d")]) = false ∧ KeyError "name" = TypeError)
  ∨ (is_dict (VDict [("description", VStr "d")]) = true
     ∧ has_field (VDict [("description", VStr "d")]) "name" = false
     ∧ KeyError "name" = KeyError "name")
  ∨ (is_dict (VDict [("description", VStr "d")]) = true
     ∧ has_field (VDict [("description", VStr "d")]) "name" = true
     ∧ has_field (VDict [("description", VStr "d")]) "description" = false
     ∧ KeyError "name" = KeyError "description").
Proof.
  exact (parameter_from_dict_errors (VDict [("description", VStr "d")])
           (KeyError "name") eq_refl).
Defined.

(** X2: the parameter parsed from a mapping depends on the four fields
    [name], [description], [required] and [type] only: two mappings that
    agree on them, whatever other keys they have and in whatever order, give
    the same result. *)
Theorem parameter_from_dict_four_fields (d d' : list (string * value)) :
  (∀ k, k ∈ ["name"; "description"; "required"; "type"] →
        dict_lookup k d = dict_lookup k d') →
  PluginParameter.from_dict (VDict d) = PluginParameter.from_dict (VDict d').
Proof.
  intros H. rewrite !parameter_from_dict_eq.
  rewrite <- (H "name"), <- (H "description"), <- (H "required"), <- (H "type");
    [reflexivity|set_solver..].
Qed.

Lemma parameter_from_dict_four_fields_witness :
  PluginParameter.from_dict
    (VDict [("default", VInt 3); ("description", VStr "d"); ("name", VStr "x")])
  = PluginParameter.from_dict
      (VDict [("name", VStr "x"); ("description", VStr "d")]).
Proof.
  apply parameter_from_dict_four_fields. intros k Hk.
  repeat (apply elem_of_cons in Hk as [->|Hk]; [reflexivity|]).
  by apply not_elem_of_nil in Hk.
Defined.

(** ** Parsing a specification *)

Lemma mapM_first_raise {A B} (f : A → result B) (l1 l2 : list A) (x : A) (e : exn) :
  Forall (λ y, is_ok (f y) = true) l1 → f x = Raise e →
  mapM f (l1 ++ x :: l2) = Raise e.
Proof.
  intros Hl1 Hx. induction Hl1 as [|y l1 Hy _ IH]; cbn [app mapM].
  - by rewrite Hx.
  - destruct (f y); [|discriminate]. step. by rewrite IH.
Qed.

(** X3: [PluginSpec.from_dict] looks its fields up in the order [name],
    [description], [parameters], [returns]: a record that is not a mapping
    raises [TypeError], and a mapping raises [KeyError] for the first of the
    four that is absent, [returns] being reached only when the parameters
    have been parsed. *)
Theorem spec_from_dict_missing_key (v : value) :
  (is_dict v = false → PluginSpec.from_dict v = Raise TypeError)
  ∧ (∀ d, v = VDict d → dict_lookup "name" d = None →
          PluginSpec.from_dict v = Raise (KeyError "name"))
  ∧ (∀ d, v = VDict d → is_Some (dict_lookup "name" d) →
          dict_lookup "description" d = None →
          PluginSpec.from_dict v = Raise (KeyError "description"))
  ∧ (∀ d, v = VDict d → is_Some (dict_lookup "name" d) →
          is_Some (dict_lookup "description" d) →
          dict_lookup "parameters" d = None →
          PluginSpec.from_dict v = Raise (KeyError "parameters"))
  ∧ (∀ d, v = VDict d → is_Some (dict_lookup "name" d) →
          is_Some (dict_lookup "description" d) →
          parameters_ok v "parameters" = true →
          dict_lookup "returns" d = None →
          PluginSpec.from_dict v = Raise (KeyError "returns")).
Proof.
  split; [|split; [|split; [|split]]].
  - by destruct v.
  - intros d -> Hn. unfold PluginSpec.from_dict.
    by rewrite (getitem_dict "name"), Hn.
  - intros d -> [n Hn] Hd. unfold PluginSpec.from_dict.
    by rewrite (getitem_dict "name"), (getitem_dict "description"), Hn, Hd.
  - intros d -> [n Hn] [ds Hd] Hp. unfold PluginSpec.from_dict.
    by rewrite (getitem_dict "name"), (getitem_dict "description"),
      (getitem_dict "parameters"), Hn, Hd, Hp.
  - intros d -> [n Hn] [ds Hd] Hp Hr. unfold PluginSpec.from_dict.
    rewrite <- parameter_list_ok in Hp.
    rewrite (getitem_dict "name"), (getitem_dict "description"), Hn, Hd. step.
    destruct (ps ← getitem (VDict d) "parameters"; l ← iter ps;
              mapM PluginParameter.from_dict l); [|discriminate].
    step. by rewrite (getitem_dict "returns"), Hr.
Qed.

Lemma spec_from_dict_missing_key_witness :
  PluginSpec.from_dict (VDict [("name", VStr "p"); ("returns", VList [])])
  = Raise (KeyError "description").
Proof.
  exact (proj1 (proj2 (proj2 (spec_from_dict_missing_key
           (VDict [("name", VStr "p"); ("returns", VList [])]))))
           _ eq_refl (ex_intro _ _ eq_refl) eq_refl).
Defined.

(** X4: the parameters are parsed in order and before [returns] is looked
    at: the error of the first parameter that does not parse is the error of
    the whole record, whatever follows it and whatever [returns] is. *)
Theorem spec_from_dict_first_bad_parameter
    (v n ds bad : value) (ps1 ps2 : list value) (e : exn) :
  getitem v "name" = Ok n → getitem v "description" = Ok ds →
  getitem v "parameters" = Ok (VList (ps1 ++ bad :: ps2)) →
  Forall (λ p, is_ok (PluginParameter.from_dict p) = true) ps1 →
  PluginParameter.from_dict bad = Raise e →
  PluginSpec.from_dict v = Raise e.
Proof.
  intros Hn Hd Hp Hps1 Hbad. unfold PluginSpec.from_dict.
  rewrite Hn, Hd, Hp. step. cbn [iter]. step.
  by rewrite (mapM_first_raise _ _ _ _ _ Hps1 Hbad).
Qed.

Lemma spec_from_dict_first_bad_parameter_witness :
  PluginSpec.from_dict
    (VDict [("name", VStr "p"); ("description", VStr "d");
            ("parameters",
             VList [VDict [("name", VStr "x"); ("description", VStr "dx")];
                    VDict [("name", VStr "y")]; VInt 3])])
  = Raise (KeyError "description").
Proof.
  apply (spec_from_dict_first_bad_parameter _ (VStr "p") (VStr "d")
           (VDict [("name", VStr "y")])
           [VDict [("name", VStr "x"); ("description", VStr "dx")]] [VInt 3]);
    try reflexivity.
  by repeat constructor.
Defined.

(** X5: a [parameters] value that is a mapping or a text instead of a
    sequence is iterated all the same: a non-empty one raises [TypeError]
    (its keys, or its characters, are strings and have no fields), an empty
    one is taken for an empty sequence. *)
Theorem spec_from_dict_parameters_not_a_sequence (v n ds ps : value) :
  getitem v "name" = Ok n → getitem v "description" = Ok ds →
  getitem v "parameters" = Ok ps →
  ((∃ kv d, ps = VDict (kv :: d)) ∨ (∃ c s, ps = VStr (String c s)) →
   PluginSpec.from_dict v = Raise TypeError)
  ∧ (ps = VDict [] ∨ ps = VStr "" →
     ∀ s, PluginSpec.from_dict v = Ok s → PluginSpec.args s = []).
Proof.
  intros Hn Hd Hp. unfold PluginSpec.from_dict. rewrite Hn, Hd, Hp. step. split.
  - by intros [(kv & d & ->)|(c & s & ->)].
  - intros [-> | ->] s; cbn [iter chars map mapM]; step;
      (destruct (rs ← getitem v "returns"; l ← iter rs;
                 mapM PluginParameter.from_dict l); [|discriminate]);
      by intros [= <-].
Qed.

Lemma spec_from_dict_parameters_not_a_sequence_witness :
  PluginSpec.from_dict
    (VDict [("name", VStr "p"); ("description", VStr "d");
            ("parameters", VDict [("x", VDict [("description", VStr "dx")])]);
            ("returns", VList [])])
  = Raise TypeError.
Proof.
  exact (proj1 (spec_from_dict_parameters_not_a_sequence
                  (VDict [("name", VStr "p"); ("description", VStr "d");
                          ("parameters",
                           VDict [("x", VDict [("description", VStr "dx")])]);
                          ("returns", VList [])])
                  (VStr "p") (VStr "d") _ eq_refl eq_refl eq_refl)
           (or_introl (ex_intro _ _ (ex_intro _ _ eq_refl)))).
Defined.

Lemma spec_from_dict_name (v : value) (s : PluginSpec.t) :
  PluginSpec.from_dict v = Ok s → getitem v "name" = Ok (PluginSpec.name s).
Proof.
  unfold PluginSpec.from_dict.
  destruct (getitem v "name") as [n|]; [|discriminate]. step.
  destruct (getitem v "description") as [ds|]; [|discriminate]. step.
  destruct (getitem v "parameters" ≫= _) as [a|]; [|discriminate]. step.
  destruct (getitem v "returns" ≫= _) as [r|]; [|discriminate]. step.
  by intros [= <-].
Qed.

(** X6: what a successful [PluginSpec.from_dict] returns: the [name] and
    [description] fields as they are, one parsed parameter for each element
    of [parameters] and of [returns], in the order of the record, and an
    empty embedding, whatever else the record holds. *)
Theorem spec_from_dict_inversion (v : value) (s : PluginSpec.t) :
  PluginSpec.from_dict v = Ok s →
  getitem v "name" = Ok (PluginSpec.name s)
  ∧ getitem v "description" = Ok (PluginSpec.description s)
  ∧ PluginSpec.embedding s = []
  ∧ ∃ ps rs,
      (getitem v "parameters" ≫= iter) = Ok ps
      ∧ (getitem v "returns" ≫= iter) = Ok rs
      ∧ Forall2 (λ p q, PluginParameter.from_dict p = Ok q) ps (PluginSpec.args s)
      ∧ Forall2 (λ p q, PluginParameter.from_dict p = Ok q) rs (PluginSpec.returns s).
Proof.
  unfold PluginSpec.from_dict.
  destruct (getitem v "name") as [n|]; [|discriminate]. step.
  destruct (getitem v "description") as [ds|]; [|discriminate]. step.
  destruct (getitem v "parameters") as [pv|]; [|discriminate]. step.
  destruct (iter pv) as [ps|]; [|discriminate]. step.
  destruct (mapM PluginParameter.from_dict ps) as [a|] eqn:Ha; [|discriminate]. step.
  destruct (getitem v "returns") as [rv|]; [|discriminate]. step.
  destruct (iter rv) as [rs|]; [|discriminate]. step.
  destruct (mapM PluginParameter.from_dict rs) as [r|] eqn:Hr; [|discriminate]. step.
  intros [= <-]. cbn. repeat split.
  exists ps, rs. repeat split; by apply mapM_Ok_Forall2.
Qed.

Lemma spec_from_dict_inversion_witness :
  getitem (sql_record [("embedding", VList [VInt 1])]) "name" = Ok (VStr "sql").
Proof.
  destruct (is_ok_true (PluginSpec.from_dict (sql_record [("embedding", VList [VInt 1])]))
              eq_refl) as [s Hs].
  destruct (spec_from_dict_inversion _ s Hs) as (Hn & _).
  rewrite Hn. f_equal. vm_compute in Hs. by inversion Hs.
Defined.

Lemma parameter_record_parsed (p : TypedParameter) :
  PluginParameter.from_dict (parameter_record p) = Ok (parameter_object p).
Proof. reflexivity. Qed.

(** X7: every specification that respects the annotations is the parse of a
    record: parsing the record that spells out its fields gives it back,
    with the empty embedding, and rendering that parse gives the prompt of
    the specification. *)
Theorem spec_record_round_trip (s : TypedSpec) :
  PluginSpec.from_dict (spec_record s)
  = Ok (specification_object
          {| s_name := s_name s; s_description := s_description s;
             s_args := s_args s; s_returns := s_returns s; s_embedding := [] |})
  ∧ (PluginSpec.from_dict (spec_record s) ≫= PluginSpec.format_prompt)
    = PluginSpec.format_prompt (specification_object s).
Proof.
  assert (PluginSpec.from_dict (spec_record s)
          = Ok (specification_object
                  {| s_name := s_name s; s_description := s_description s;
                     s_args := s_args s; s_returns := s_returns s;
                     s_embedding := [] |})) as Hparse.
  { unfold PluginSpec.from_dict, spec_record.
    cbn [getitem dict_lookup String.eqb Ascii.eqb Bool.eqb]. step.
    cbn [iter]. step.
    rewrite (mapM_ok PluginParameter.from_dict parameter_object)
      by apply parameter_record_parsed.
    step. cbn [iter]. step.
    rewrite (mapM_ok PluginParameter.from_dict parameter_object)
      by apply parameter_record_parsed.
    reflexivity. }
  split; [exact Hparse|]. rewrite Hparse. step.
  by rewrite !format_prompt_typed.
Qed.

(** ** Rendering objects as they are *)

Lemma mapM_raise_inv {A B} (f : A → result B) (l : list A) (e : exn) :
  mapM f l = Raise e → ∃ x, x ∈ l ∧ f x = Raise e.
Proof.
  induction l as [|y l IH]; cbn [mapM]; [discriminate|].
  destruct (f y) as [b|e'] eqn:Hy.
  - step. destruct (mapM f l) as [k|e'']; [discriminate|].
    step. intros [= <-]. destruct (IH eq_refl) as (x & Hx & Hfx).
    exists x. split; [by right|done].
  - step. intros [= <-]. exists y. split; [by left|done].
Qed.

(** [normalize_value] in closed form. *)
Lemma normalize_value_raw (p : PluginParameter.t) :
  PluginSpec.normalize_value p
  = match PluginParameter.type p with
    | VStr t =>
        if renderable p
        then Ok {| PluginParameter.name := PluginParameter.name p;
                   PluginParameter.type := VStr (normalized_type t);
                   PluginParameter.required := PluginParameter.required p;
                   PluginParameter.description :=
                     VStr (folded (strip (description_text p))) |}
        else Raise AttributeError
    | _ => Raise AttributeError
    end.
Proof.
  unfold PluginSpec.normalize_value, renderable, description_text.
  destruct (PluginParameter.type p) as [| | |t| |]; try reflexivity.
  rewrite normalize_type_typed. step.
  unfold PluginSpec.normalize_description, py_or.
  destruct (PluginParameter.description p) as [|b|z|s|l|d]; cbn [truthy negb].
  - reflexivity.
  - by destruct b.
  - by destruct (z =? 0)%Z.
  - destruct (String.eqb_spec s "") as [->|_]; cbn [negb call_strip]; step;
      by rewrite replace_char_split.
  - by destruct l.
  - by destruct d.
Qed.

Lemma normalize_value_is_ok (p : PluginParameter.t) :
  is_ok (PluginSpec.normalize_value p) = renderable p.
Proof.
  rewrite normalize_value_raw. unfold renderable.
  destruct (PluginParameter.type p); try reflexivity.
  by destruct (PluginParameter.description p) as [|[]| | |[]|[]];
    cbn [truthy negb]; repeat case_match.
Qed.

Lemma normalize_value_raises (p : PluginParameter.t) (e : exn) :
  PluginSpec.normalize_value p = Raise e → e = AttributeError.
Proof.
  rewrite normalize_value_raw.
  destruct (PluginParameter.type p); try (by intros [= <-]).
  destruct (renderable p); [discriminate|by intros [= <-]].
Qed.

Lemma format_arg_val_renderable (p : PluginParameter.t) (t : string) :
  PluginParameter.type p = VStr t → renderable p = true →
  PluginSpec.format_arg_val p
  = Ok (newline +:+ "# " +:+ folded (strip (description_text p)) +:+ newline
        +:+ str (PluginParameter.name p) +:+ ": "
        +:+ (if truthy (PluginParameter.required p)
                || String.eqb (normalized_type t) "Any"
             then "Any"
             else "Optional[" +:+ normalized_type t +:+ "]")).
Proof.
  intros Ht Hok. unfold PluginSpec.format_arg_val.
  rewrite normalize_value_raw, Ht, Hok. step.
  cbn [PluginParameter.type PluginParameter.required PluginParameter.name
       PluginParameter.description PluginSpec.is_not_none str].
  unfold PluginSpec.ne_str, is_str.
  rewrite ?app_assoc_str.
  by destruct (truthy (PluginParameter.required p)),
    (String.eqb (normalized_type t) "Any").
Qed.

(** X8: [format_arg_val] on any object that [normalize_value] accepts: the
    name is rendered with [str], whatever value it is, and [required] counts
    by its truth value only, so that [0], [None] and the empty string make a
    parameter optional and any non-empty string makes it required. *)
Theorem format_arg_val_raw (p : PluginParameter.t) (t : string) :
  PluginParameter.type p = VStr t → renderable p = true →
  PluginSpec.format_arg_val p
  = Ok (newline +:+ "# " +:+ folded (strip (description_text p)) +:+ newline
        +:+ str (PluginParameter.name p) +:+ ": "
        +:+ (if truthy (PluginParameter.required p)
                || String.eqb (normalized_type t) "Any"
             then "Any"
             else "Optional[" +:+ normalized_type t +:+ "]")).
Proof. apply format_arg_val_renderable. Qed.

Lemma format_arg_val_raw_witness :
  PluginSpec.format_arg_val
    {| PluginParameter.name := VInt 7; PluginParameter.type := VStr "float";
       PluginParameter.required := VStr "no";
       PluginParameter.description := VNone |}
  = Ok (newline +:+ "# " +:+ newline +:+ "7: Any").
Proof.
  exact (format_arg_val_raw
           {| PluginParameter.name := VInt 7; PluginParameter.type := VStr "float";
              PluginParameter.required := VStr "no";
              PluginParameter.description := VNone |} "float" eq_refl eq_refl).
Defined.

Lemma format_arg_val_is_ok (p : PluginParameter.t) :
  is_ok (PluginSpec.format_arg_val p) = renderable p.
Proof.
  rewrite <- normalize_value_is_ok. unfold PluginSpec.format_arg_val.
  destruct (PluginSpec.normalize_value p) as [q|]; [|reflexivity]. step.
  by destruct (PluginSpec.is_not_none _).
Qed.

Lemma format_return_val_is_ok (p : PluginParameter.t) :
  is_ok (PluginSpec.format_return_val p) = renderable p.
Proof.
  rewrite <- normalize_value_is_ok. unfold PluginSpec.format_return_val.
  destruct (PluginSpec.normalize_value p) as [q|]; [|reflexivity]. step.
  by destruct (PluginSpec.is_not_none _).
Qed.

Lemma format_val_raises (p : PluginParameter.t) (e : exn) :
  PluginSpec.format_arg_val p = Raise e ∨ PluginSpec.format_return_val p = Raise e →
  e = AttributeError.
Proof.
  unfold PluginSpec.format_arg_val, PluginSpec.format_return_val.
  destruct (PluginSpec.normalize_value p) as [q|e'] eqn:Hn.
  - step. destruct (PluginSpec.is_not_none _); by intros [?|?].
  - apply normalize_value_raises in Hn as ->. step. by intros [[= <-]|[= <-]].
Qed.

(** X9: [PluginSpec.format_prompt] returns a prompt exactly when every
    argument and every return value has a [type] that is a string and a
    [description] that is a string or counts as false; otherwise it raises
    [AttributeError], and nothing else. *)
Theorem format_prompt_raises_iff (self : PluginSpec.t) :
  is_ok (PluginSpec.format_prompt self)
  = forallb renderable (PluginSpec.args self)
    && forallb renderable (PluginSpec.returns self)
  ∧ ∀ e, PluginSpec.format_prompt self = Raise e → e = AttributeError.
Proof.
  unfold PluginSpec.format_prompt.
  pose proof (mapM_is_ok PluginSpec.format_arg_val renderable
                (PluginSpec.args self) format_arg_val_is_ok) as Hargs.
  pose proof (mapM_is_ok PluginSpec.format_return_val renderable
                (PluginSpec.returns self) format_return_val_is_ok) as Hrets.
  destruct (mapM PluginSpec.format_arg_val (PluginSpec.args self))
    as [al|ea] eqn:Ha; cbn [fmap result_fmap]; step.
  - rewrite <- Hargs. cbn [is_ok andb].
    destruct (PluginSpec.returns self) as [|r0 [|r1 rs]] eqn:Hr;
      cbn [length Nat.ltb Nat.leb Nat.eqb].
    + split; [reflexivity|discriminate].
    + step. cbn [forallb]. rewrite andb_true_r, <- normalize_value_is_ok.
      destruct (PluginSpec.normalize_value r0) as [rv|e0] eqn:Hn; step.
      * split; [reflexivity|discriminate].
      * split; [reflexivity|]. intros e [= <-]. by eapply normalize_value_raises.
    + rewrite <- Hrets.
      destruct (mapM PluginSpec.format_return_val (r0 :: r1 :: rs))
        as [l|e0] eqn:Hm; step.
      * split; [reflexivity|discriminate].
      * split; [reflexivity|]. intros e [= <-].
        apply mapM_raise_inv in Hm as (x & _ & Hx).
        eapply format_val_raises. by right.
  - rewrite <- Hargs. split; [reflexivity|]. intros e [= <-].
    apply mapM_raise_inv in Ha as (x & _ & Hx).
    eapply format_val_raises. by left.
Qed.

(** ** Normalizing types and descriptions *)

(** X10: normalizing a type twice is normalizing it once, and the result is
    ["Any"] only for the declared type ["Any"] itself, letter for letter:
    normalization neither makes nor removes the type that switches the
    [Optional[...]] annotation off. *)
Theorem normalize_type_stable (t : string) :
  (t' ← PluginSpec.normalize_type (VStr t); PluginSpec.normalize_type (VStr t'))
  = PluginSpec.normalize_type (VStr t)
  ∧ (PluginSpec.normalize_type (VStr t) = Ok "Any" ↔ t = "Any").
Proof.
  rewrite normalize_type_typed. step. rewrite normalize_type_typed.
  unfold normalized_type.
  destruct (String.eqb (lower t) "string") eqn:H1;
    [split; [reflexivity|split; [discriminate|intros ->; discriminate]]|].
  destruct (String.eqb (lower t) "integer") eqn:H2;
    [split; [reflexivity|split; [discriminate|intros ->; discriminate]]|].
  rewrite H1, H2. split; [reflexivity|]. split; [by intros [= ->]|by intros ->].
Qed.

Lemma split_char_cons_no_break (c : ascii) (s : string) :
  Ascii.eqb c LF = false →
  split_char LF (String c s)
  = match split_char LF s with
    | l :: ls => String c l :: ls
    | [] => [String c ""]
    end.
Proof. intros H. cbn [split_char]. by rewrite H. Qed.

Lemma split_char_cons_break (s : string) :
  split_char LF (String LF s) = "" :: split_char LF s.
Proof. reflexivity. Qed.

(** X11: [normalize_description] keeps the lines of the stripped
    description, in number and in order: the first as it is, and each later
    one behind ["# "], so that no line of a description can start anything
    but a comment. *)
Theorem normalize_description_lines (d : string) :
  ∃ out l ls,
    PluginSpec.normalize_description (VStr d) = Ok out
    ∧ split_char LF (strip d) = l :: ls
    ∧ split_char LF out = l :: map (λ x, "# " +:+ x) ls.
Proof.
  unfold PluginSpec.normalize_description. cbn [call_strip]. step.
  generalize (strip d). clear d. intros s.
  exists (replace_char LF (newline +:+ "# ") s).
  induction s as [|a s (l & ls & _ & Hs & Hout)].
  - by exists "", [].
  - cbn [replace_char split_char]. destruct (Ascii.eqb a LF) eqn:Ha.
    + exists "", (l :: ls). split; [reflexivity|]. split; [by rewrite Hs|].
      change ((newline +:+ "# ") +:+ ?x)
        with (String LF (String "#" (String " " x))).
      rewrite split_char_cons_break.
      rewrite !split_char_cons_no_break by reflexivity.
      by rewrite Hout.
    + exists (String a l), ls. split; [reflexivity|]. rewrite Hs.
      split; [reflexivity|].
      rewrite split_char_cons_no_break by exact Ha. by rewrite Hout.
Qed.

Section strip_facts.
Implicit Types (s ws : string).

Lemma lstrip_space_app ws s : all_space ws = true → lstrip (ws +:+ s) = lstrip s.
Proof.
  unfold all_space. induction ws as [|c ws IH]; [done|].
  cbn [chars forallb]. intros [Hc Hws]%andb_true_iff.
  rewrite app_cons. cbn [lstrip]. rewrite Hc. by apply IH.
Qed.

Lemma rstrip_space ws : all_space ws = true → rstrip ws = "".
Proof.
  unfold all_space. induction ws as [|c ws IH]; [done|].
  cbn [chars forallb]. intros [Hc Hws]%andb_true_iff.
  cbn [rstrip]. by rewrite IH, Hc.
Qed.

Lemma rstrip_app_space s ws : all_space ws = true → rstrip (s +:+ ws) = rstrip s.
Proof.
  intros Hws. induction s as [|c s IH]; [by apply rstrip_space|].
  rewrite app_cons. cbn [rstrip]. by rewrite IH.
Qed.

Lemma strip_app_space s ws : all_space ws = true → strip (s +:+ ws) = strip s.
Proof.
  intros Hws. unfold strip. induction s as [|c s IH].
  - rewrite app_empty_l. rewrite <- (app_empty_r ws) at 1.
    rewrite lstrip_space_app by done. reflexivity.
  - rewrite app_cons. cbn [lstrip]. destruct (is_space c); [exact IH|].
    by rewrite <- app_cons, rstrip_app_space.
Qed.
End strip_facts.

(** X12: white space around a description never reaches the prompt:
    [normalize_description] gives the same text for a description and for
    the same description with any white space (blanks, tabs, line feeds)
    before and after it. *)
Theorem normalize_description_outer_space (ws1 ws2 d : string) :
  all_space ws1 = true → all_space ws2 = true →
  PluginSpec.normalize_description (VStr (ws1 +:+ d +:+ ws2))
  = PluginSpec.normalize_description (VStr d).
Proof.
  intros H1 H2. unfold PluginSpec.normalize_description. cbn [call_strip]. step.
  unfold strip at 1. rewrite lstrip_space_app by done.
  fold (strip (d +:+ ws2)). by rewrite strip_app_space.
Qed.

Lemma normalize_description_outer_space_witness :
  PluginSpec.normalize_description
    (VStr ((newline +:+ "  ") +:+ "the query" +:+ (" " +:+ newline)))
  = PluginSpec.normalize_description (VStr "the query").
Proof.
  exact (normalize_description_outer_space (newline +:+ "  ") (" " +:+ newline)
           "the query" eq_refl eq_refl).
Defined.

(** ** The listing of a parameter *)

Section line_facts.
Implicit Types (s t : string) (ls : list string).

Lemma no_line_break_app s t :
  no_line_break (s +:+ t) = no_line_break s && no_line_break t.
Proof.
  unfold no_line_break. induction s as [|c s IH]; [reflexivity|].
  rewrite app_cons. cbn [chars forallb]. by rewrite IH, andb_assoc.
Qed.

Lemma concat_cons_empty_sep s ls :
  String.concat "" (s :: ls) = s +:+ String.concat "" ls.
Proof. destruct ls; [by rewrite app_empty_r|reflexivity]. Qed.

Lemma no_line_break_spaces n : no_line_break (spaces n) = true.
Proof.
  unfold spaces. induction n as [|n IH]; [reflexivity|].
  cbn [replicate]. rewrite concat_cons_empty_sep.
  by rewrite no_line_break_app, IH.
Qed.

Lemma split_char_app_break s t :
  no_line_break s = true →
  split_char LF (s +:+ String LF t) = s :: split_char LF t.
Proof.
  unfold no_line_break. induction s as [|c s IH]; [reflexivity|].
  cbn [chars forallb]. intros [Hc Hs]%andb_true_iff.
  apply negb_true_iff in Hc.
  rewrite app_cons, split_char_cons_no_break by done. by rewrite IH.
Qed.

Lemma split_char_no_break s : no_line_break s = true → split_char LF s = [s].
Proof.
  unfold no_line_break. induction s as [|c s IH]; [reflexivity|].
  cbn [chars forallb]. intros [Hc Hs]%andb_true_iff.
  apply negb_true_iff in Hc.
  rewrite split_char_cons_no_break by done. by rewrite IH.
Qed.

(** Joining lines and splitting the text gives the lines back. *)
Lemma split_char_join s ls :
  Forall (λ l, no_line_break l = true) (s :: ls) →
  split_char LF (join newline (s :: ls)) = s :: ls.
Proof.
  revert s. induction ls as [|l ls IH]; intros s Hall.
  - apply split_char_no_break. by inversion Hall.
  - rewrite join_cons. inversion Hall as [|?? Hs Hrest]; subst.
    change (newline +:+ ?x) with (String LF x).
    rewrite split_char_app_break by done. by rewrite IH.
Qed.
End line_facts.

(** X13: [PluginParameter.format_prompt] lists a parameter on four lines,
    [- name:], [type:], [required:] and [description:], each behind
    [indent] blanks, provided no attribute has a line feed in its text; a
    missing description is listed as [None]. *)
Theorem parameter_format_prompt_lines (self : PluginParameter.t) (indent : nat) :
  no_line_break (str (PluginParameter.name self)) = true →
  no_line_break (str (PluginParameter.type self)) = true →
  no_line_break (str (PluginParameter.required self)) = true →
  no_line_break (str (PluginParameter.description self)) = true →
  split_char LF (PluginParameter.format_prompt self indent)
  = map (λ l, spaces indent +:+ l)
      [ "- name: " +:+ str (PluginParameter.name self);
        "  type: " +:+ str (PluginParameter.type self);
        "  required: " +:+ str (PluginParameter.required self);
        "  description: " +:+ str (PluginParameter.description self) ].
Proof.
  intros Hn Ht Hr Hd. unfold PluginParameter.format_prompt. fold (spaces indent).
  rewrite split_char_join; [reflexivity|].
  repeat constructor;
    by rewrite !no_line_break_app, no_line_break_spaces, ?Hn, ?Ht, ?Hr, ?Hd.
Qed.

Lemma parameter_format_prompt_lines_witness :
  split_char LF
    (PluginParameter.format_prompt
       {| PluginParameter.name := VStr "query"; PluginParameter.type := VStr "str";
          PluginParameter.required := VBool true;
          PluginParameter.description := VNone |} 2)
  = [ "  - name: query"; "    type: str"; "    required: True";
      "    description: None" ].
Proof.
  exact (parameter_format_prompt_lines
           {| PluginParameter.name := VStr "query"; PluginParameter.type := VStr "str";
              PluginParameter.required := VBool true;
              PluginParameter.description := VNone |} 2
           eq_refl eq_refl eq_refl eq_refl).
Defined.

(** ** Loading from a file *)

(** X14: [PluginEntry.from_yaml] never returns [None], and it does not
    consult [validate_yaml] (nor the embedding collaborator): validation is
    switched off in the code, so the result is that of reading and parsing
    alone, and the [entry is None] branch of [_load_component] is never
    taken. *)
Theorem from_yaml_never_none (env : collaborators) (path : string) :
  (∀ o, PluginEntry.from_yaml env path = Ok o → ∃ e, o = Some e)
  ∧ (∀ validate embed,
       PluginEntry.from_yaml
         {| read_yaml := read_yaml env; validate_yaml := validate;
            get_embedding := embed |} path
       = PluginEntry.from_yaml env path)
  ∧ (∀ content, read_yaml env path = Ok content →
       is_ok (PluginEntry.from_yaml env path)
       = is_ok (PluginSpec.from_dict content)).
Proof.
  split; [|split].
  - intros o. unfold PluginEntry.from_yaml.
    destruct (read_yaml env path) as [content|]; [|discriminate].
    cbn [mbind result_bind negb orb].
    destruct (PluginSpec.from_dict content) as [s|]; [|discriminate]. step.
    destruct (get content "code" _); [|discriminate]. step.
    destruct (get content "configurations" _); [|discriminate]. step.
    destruct (get content "required" _); [|discriminate]. step.
    destruct (get content "enabled" _); [|discriminate]. step.
    intros [= <-]. eauto.
  - reflexivity.
  - intros content Hread. unfold PluginEntry.from_yaml. rewrite Hread.
    cbn [mbind result_bind negb orb].
    destruct (PluginSpec.from_dict content) as [s|] eqn:Hs; [|reflexivity].
    destruct content as [| | | | |d]; try discriminate. reflexivity.
Qed.

Lemma from_yaml_never_none_witness :
  ∃ e, PluginEntry.from_yaml (constant_collaborators (sql_record []) []) "sql.yaml"
       = Ok (Some e).
Proof.
  destruct (is_ok_true (PluginEntry.from_yaml
                          (constant_collaborators (sql_record []) []) "sql.yaml")
              eq_refl) as [o Ho].
  destruct (proj1 (from_yaml_never_none _ _) o Ho) as [e ->]. by exists e.
Defined.

(** X15: [_load_component] passes on the error of reading the file and the
    error of parsing its record as they are, without wrapping them, and in
    both cases nothing has been sent to the embedding collaborator. *)
Theorem load_component_propagates
    (env : collaborators) (self : PluginRegistry.t) (path : string)
    (log : list string) (e : exn) :
  read_yaml env path = Raise e
  ∨ (∃ content, read_yaml env path = Ok content
                ∧ PluginSpec.from_dict content = Raise e) →
  PluginRegistry._load_component env self path log = (Raise e, log).
Proof.
  intros H. unfold PluginRegistry._load_component; unfold_io.
  assert (PluginEntry.from_yaml env path = Raise e) as ->; [|reflexivity].
  unfold PluginEntry.from_yaml. destruct H as [->|(content & -> & Hs)];
    [reflexivity|].
  cbn [mbind result_bind negb orb]. by rewrite Hs.
Qed.

Lemma load_component_propagates_witness :
  PluginRegistry._load_component
    (constant_collaborators (VList []) []) (sample_registry true) "x.yaml" []
  = (Raise TypeError, []).
Proof.
  exact (load_component_propagates (constant_collaborators (VList []) [])
           (sample_registry true) "x.yaml" [] TypeError
           (or_intror (ex_intro _ (VList []) (conj eq_refl eq_refl)))).
Defined.

(** X16: with auto selection enabled, an entry whose name or description is
    not a string makes [_load_component] raise [TypeError] before anything
    is sent to the embedding collaborator; and an error of the collaborator
    is passed on after exactly the one request, no entry being returned. *)
Theorem load_component_embedding_errors
    (env : collaborators) (self : PluginRegistry.t) (path : string)
    (log : list string) (e : PluginEntry.t) :
  PluginRegistry.enable_auto_plugin_selection self = true →
  PluginEntry.from_yaml env path = Ok (Some e) →
  truthy (PluginEntry.enabled e) = true →
  ((∀ n, PluginEntry.name e ≠ VStr n)
   ∨ (∀ d, PluginSpec.description (PluginEntry.spec e) ≠ VStr d) →
   PluginRegistry._load_component env self path log = (Raise TypeError, log))
  ∧ (∀ n d x,
       PluginEntry.name e = VStr n →
       PluginSpec.description (PluginEntry.spec e) = VStr d →
       get_embedding env (n +:+ ": " +:+ d) = Raise x →
       PluginRegistry._load_component env self path log
       = (Raise x, log ++ [n +:+ ": " +:+ d])).
Proof.
  intros Hon Hy Hen. split.
  - intros Hbad. unfold PluginRegistry._load_component; unfold_io.
    rewrite Hy, Hen, Hon. cbn [negb].
    destruct (PluginEntry.name e) as [| | |n| |] eqn:Hn;
      try reflexivity.
    destruct (PluginSpec.description (PluginEntry.spec e)) as [| | |d| |] eqn:Hd;
      try reflexivity.
    destruct Hbad as [Hbad|Hbad]; [by destruct (Hbad n)|by destruct (Hbad d)].
  - intros n d x Hn Hd Hx.
    by rewrite (load_with_selection env self path log e n d Hon Hy Hen Hn Hd), Hx.
Qed.

Lemma load_component_embedding_errors_witness :
  PluginRegistry._load_component
    (constant_collaborators
       (VDict [("name", VInt 7); ("description", VStr "d");
               ("parameters", VList []); ("returns", VList [])]) [])
    (sample_registry true) "seven.yaml" []
  = (Raise TypeError, []).
Proof.
  refine (proj1 (load_component_embedding_errors
                   (constant_collaborators
                      (VDict [("name", VInt 7); ("description", VStr "d");
                              ("parameters", VList []); ("returns", VList [])]) [])
                   (sample_registry true) "seven.yaml" [] _ eq_refl eq_refl eq_refl)
            (or_introl _)).
  intros n. discriminate.
Defined.

(** X17: whether a plugin is enabled is decided by the truth value of its
    [enabled] field, [True] when the field is absent: [False], [None], [0],
    the empty string and empty collections disable it, and any other value,
    the text "false" included, leaves it enabled.  A disabled plugin raises
    the "is disabled" exception; an enabled one is returned under its name
    (shown here with auto selection off). *)
Theorem load_component_enabled_by_truth_value
    (env : collaborators) (self : PluginRegistry.t) (path : string)
    (log : list string) (d : list (string * value)) (s : PluginSpec.t) :
  read_yaml env path = Ok (VDict d) →
  PluginSpec.from_dict (VDict d) = Ok s →
  (truthy (default (VBool true) (dict_lookup "enabled" d)) = false →
   PluginRegistry._load_component env self path log
   = (Raise (Exception ("plugin " +:+ str (PluginSpec.name s) +:+ " is disabled")),
      log))
  ∧ (truthy (default (VBool true) (dict_lookup "enabled" d)) = true →
     PluginRegistry.enable_auto_plugin_selection self = false →
     ∃ e, PluginRegistry._load_component env self path log
          = (Ok (PluginSpec.name s, e), log)
          ∧ PluginEntry.spec e = s
          ∧ PluginEntry.enabled e = default (VBool true) (dict_lookup "enabled" d)).
Proof.
  intros Hread Hs. pose proof (from_yaml_dict env path d s Hread Hs) as Hy. split.
  - intros Hen. by rewrite (load_disabled env self path log _ Hy).
  - intros Hen Hoff. eexists. split; [|split].
    + by apply (load_without_selection env self path log _ Hoff Hy).
    + reflexivity.
    + reflexivity.
Qed.

Lemma load_component_enabled_by_truth_value_witness :
  PluginRegistry._load_component
    (constant_collaborators (sql_record [("enabled", VNone)]) [])
    (sample_registry false) "sql.yaml" []
  = (Raise (Exception "plugin sql is disabled"), []).
Proof.
  exact (proj1 (load_component_enabled_by_truth_value
                  (constant_collaborators (sql_record [("enabled", VNone)]) [])
                  (sample_registry false) "sql.yaml" [] _ _ eq_refl eq_refl)
           eq_refl).
Defined.

Lemma format_prompt_ignores_embedding (e : PluginEntry.t) (v : list float) :
  PluginEntry.format_prompt (PluginEntry.set_embedding v e)
  = PluginEntry.format_prompt e.
Proof. reflexivity. Qed.

(** X18: the entry a successful [_load_component] returns is the entry
    [from_yaml] built, changed in its embedding at most: the key it is
    returned under is its name, which is the name of its specification and
    the [name] field of the record, and its prompt is the prompt of the
    entry [from_yaml] built, whether auto selection is on or off. *)
Theorem load_component_returns_the_parsed_entry
    (env : collaborators) (self : PluginRegistry.t) (path : string)
    (log log' : list string) (k : value) (e : PluginEntry.t) :
  PluginRegistry._load_component env self path log = (Ok (k, e), log') →
  ∃ content e0,
    read_yaml env path = Ok content
    ∧ PluginEntry.from_yaml env path = Ok (Some e0)
    ∧ getitem content "name" = Ok k
    ∧ k = PluginEntry.name e
    ∧ k = PluginSpec.name (PluginEntry.spec e)
    ∧ e = PluginEntry.set_embedding (PluginSpec.embedding (PluginEntry.spec e)) e0
    ∧ PluginEntry.format_prompt e = PluginEntry.format_prompt e0.
Proof.
  intros Hload.
  assert (∃ e0, PluginEntry.from_yaml env path = Ok (Some e0)
                ∧ k = PluginEntry.name e0
                ∧ e = PluginEntry.set_embedding
                        (PluginSpec.embedding (PluginEntry.spec e)) e0)
    as (e0 & Hy & Hk & He).
  { revert Hload. unfold PluginRegistry._load_component; unfold_io.
    destruct (PluginEntry.from_yaml env path) as [[e0|]|] eqn:Hy; [|discriminate..].
    pose proof (from_yaml_embedding env path e0 Hy) as Hemb.
    destruct (truthy (PluginEntry.enabled e0)); [|discriminate]. cbn [negb].
    destruct (PluginRegistry.enable_auto_plugin_selection self).
    - destruct (result_bind _ _ _ _) as [text|]; [|discriminate].
      unfold request_embedding.
      destruct (get_embedding env text) as [v|]; [|discriminate].
      cbn. intros [= <- <- _]. exists e0. by repeat split.
    - cbn. intros [= <- <- _]. exists e0. repeat split.
      destruct e0 as [n i [sn sd sa sr se] c r en]. cbn in *. by subst. }
  revert Hy. unfold PluginEntry.from_yaml.
  destruct (read_yaml env path) as [content|]; [|discriminate].
  cbn [mbind result_bind negb orb].
  destruct (PluginSpec.from_dict content) as [s|] eqn:Hs; [|discriminate]. step.
  destruct (get content "code" _); [|discriminate]. step.
  destruct (get content "configurations" _); [|discriminate]. step.
  destruct (get content "required" _); [|discriminate]. step.
  destruct (get content "enabled" _); [|discriminate]. step.
  intros [= <-]. eexists content, _. split; [reflexivity|]. split; [reflexivity|].
  pose proof (spec_from_dict_name content s Hs) as Hn.
  cbn in Hk. subst k. split; [exact Hn|].
  split; [by rewrite He|]. split; [by rewrite He|]. split; [exact He|].
  rewrite He at 1. apply format_prompt_ignores_embedding.
Qed.

Lemma load_component_returns_the_parsed_entry_witness :
  ∃ content e0,
    read_yaml (constant_collaborators (sql_record []) [0.5%float]) "sql.yaml"
    = Ok content
    ∧ PluginEntry.from_yaml (constant_collaborators (sql_record []) [0.5%float])
        "sql.yaml" = Ok (Some e0)
    ∧ getitem content "name" = Ok (VStr "sql").
Proof.
  destruct (is_ok_true
              (PluginRegistry._load_component
                 (constant_collaborators (sql_record []) [0.5%float])
                 (sample_registry true) "sql.yaml" []).1 eq_refl) as [[k e] Hke].
  destruct (PluginRegistry._load_component
              (constant_collaborators (sql_record []) [0.5%float])
              (sample_registry true) "sql.yaml" []) as [r log'] eqn:Hload.
  cbn in Hke. subst r.
  destruct (load_component_returns_the_parsed_entry _ _ _ _ _ _ _ Hload)
    as (content & e0 & Hread & Hy & Hn & _).
  exists content, e0. split; [exact Hread|]. split; [exact Hy|].
  rewrite Hn. f_equal. vm_compute in Hload. by inversion Hload.
Defined.

(** ** Parsing and then rendering *)

(** X19: a parameter whose record has no [type] field is rendered as
    [name: Any], never as [Optional[...]], whether or not it is required:
    the default type ["Any"] of the parse is the one type that the
    rendering leaves without [Optional]. *)
Theorem untyped_parameter_renders_Any
    (d : list (string * value)) (n : string) (ds : value) :
  dict_lookup "name" d = Some (VStr n) →
  dict_lookup "description" d = Some ds →
  dict_lookup "type" d = None →
  (∃ text, ds = VStr text) ∨ truthy ds = false →
  (PluginParameter.from_dict (VDict d) ≫= PluginSpec.format_arg_val)
  = Ok (newline +:+ "# "
        +:+ folded (strip (match ds with VStr text => text | _ => "" end))
        +:+ newline +:+ n +:+ ": Any").
Proof.
  intros Hn Hd Ht Hds. rewrite parameter_from_dict_eq, Hn, Hd, Ht. step.
  cbn [default].
  rewrite (format_arg_val_renderable
             {| PluginParameter.name := VStr n; PluginParameter.type := VStr "Any";
                PluginParameter.required :=
                  default (VBool false) (dict_lookup "required" d);
                PluginParameter.description := ds |} "Any" eq_refl).
  - cbn [PluginParameter.name PluginParameter.required str].
    unfold description_text. cbn [PluginParameter.description].
    by rewrite orb_true_r.
  - unfold renderable. cbn [PluginParameter.type PluginParameter.description].
    destruct Hds as [[text ->]| Hf]; [reflexivity|].
    destruct ds; try (by rewrite Hf); reflexivity.
Qed.

Lemma untyped_parameter_renders_Any_witness :
  (PluginParameter.from_dict
     (VDict [("name", VStr "x"); ("required", VBool false);
             ("description", VStr "the input")])
   ≫= PluginSpec.format_arg_val)
  = Ok (newline +:+ "# the input" +:+ newline +:+ "x: Any").
Proof.
  exact (untyped_parameter_renders_Any
           [("name", VStr "x"); ("required", VBool false);
            ("description", VStr "the input")] "x" (VStr "the input")
           eq_refl eq_refl eq_refl (or_introl (ex_intro _ "the input" eq_refl))).
Defined.
